(** * AI Insight Miner: the entity pipeline of [app.py]

    A shallow embedding of [WebSearcher.search],
    [LLMProcessor.extract_information] and [DataProcessor.process_entities],
    together with the parts of the Python runtime and of the two client
    libraries they rely on, and the properties of the pipeline stated in the
    specification.

    Conventions.
    - A Python [str] is a [string]; a character is one of the 256 code points
      of Latin-1.
    - A computation either returns a value or raises an exception ([result]);
      effectful code threads the list of external events issued so far
      ([trace]) through a small state-and-exception monad ([M]).
    - The outside world (the search service, the completion service) answers
      a request as a function of the request and of everything that happened
      before it ([world]): nothing forces two identical requests to be answered
      alike. *)

From Stdlib Require Import String Ascii List ZArith NArith Lia Bool QArith.
From Stdlib Require Import DecimalString.
Import ListNotations.

Close Scope Q_scope.

Set Warnings "-register-all".

Open Scope string_scope.
Open Scope list_scope.

(** ** Exceptions and results *)

(** The exception classes the pipeline can meet.  [RequestException] stands
    for [requests.exceptions.RequestException] and its subclasses, named by
    [sub] ([ConnectionError], [HTTPError], [JSONDecodeError], ...);
    [OtherException] for any other subclass of [Exception], named by [name]
    (the errors of the completion client, for instance). *)
Inductive exn_class : Type :=
| ValueError
| KeyError
| IndexError
| AttributeError
| TypeError
| RequestException (sub : string)
| OtherException (name : string).

(** An exception object: its class and the text [str(e)] gives for it. *)
Record exn : Type := mkExn { exn_cls : exn_class; exn_str : string }.

Inductive result (A : Type) : Type :=
| Ok (a : A)
| Raise (e : exn).
Arguments Ok {A} a.
Arguments Raise {A} e.

(** [isinstance(e, requests.exceptions.RequestException)] *)
Definition is_request_exception (e : exn) : bool :=
  match exn_cls e with
  | RequestException _ => true
  | _ => false
  end.

Definition raised {A : Type} (r : result A) : bool :=
  match r with
  | Ok _ => false
  | Raise _ => true
  end.

(** ** Python strings *)

Module PyStr.

Definition LF : ascii := "010"%char.
Definition nl : string := String LF EmptyString.
Definition dquote : ascii := "034"%char.
Definition squote : ascii := "039"%char.
Definition backslash : ascii := "092"%char.

Definition char (c : ascii) : string := String c EmptyString.

(** Truth value of a [str]: false exactly for the empty string. *)
Definition truthy (s : string) : bool :=
  match s with
  | EmptyString => false
  | String _ _ => true
  end.

Fixpoint contains (c : ascii) (s : string) : bool :=
  match s with
  | EmptyString => false
  | String d s' => Ascii.eqb c d || contains c s'
  end.

Definition decimal (n : N) : string := NilZero.string_of_uint (N.to_uint n).

(** *** [str.strip()] *)

(** [str.isspace] on one character of Latin-1: TAB..CR, FS..US, space,
    NEL (0x85) and NBSP (0xA0). *)
Definition isspace (c : ascii) : bool :=
  let n := N_of_ascii c in
  ((9 <=? n) && (n <=? 13) || (28 <=? n) && (n <=? 32)
   || (n =? 133) || (n =? 160))%N.

Fixpoint lstrip (s : string) : string :=
  match s with
  | EmptyString => EmptyString
  | String c s' => if isspace c then lstrip s' else s
  end.

Fixpoint rstrip (s : string) : string :=
  match s with
  | EmptyString => EmptyString
  | String c s' =>
      match rstrip s' with
      | EmptyString => if isspace c then EmptyString else String c EmptyString
      | r => String c r
      end
  end.

Definition strip (s : string) : string := rstrip (lstrip s).

(** *** [repr] of a [str] *)

Definition hexdigit (n : N) : ascii :=
  match n with
  | 0 => "0" | 1 => "1" | 2 => "2" | 3 => "3" | 4 => "4" | 5 => "5"
  | 6 => "6" | 7 => "7" | 8 => "8" | 9 => "9" | 10 => "a" | 11 => "b"
  | 12 => "c" | 13 => "d" | 14 => "e" | _ => "f"
  end%N%char.

(** Latin-1 characters that [repr] writes as they are. *)
Definition isprintable (c : ascii) : bool :=
  let n := N_of_ascii c in
  ((32 <=? n) && (n <=? 126) || (161 <=? n) && negb (n =? 173))%N.

Definition repr_char (quote c : ascii) : string :=
  let n := N_of_ascii c in
  if Ascii.eqb c quote || Ascii.eqb c backslash then String backslash (char c)
  else if (n =? 9)%N then String backslash "t"
  else if (n =? 10)%N then String backslash "n"
  else if (n =? 13)%N then String backslash "r"
  else if isprintable c then char c
  else String backslash
         (String "x" (String (hexdigit (n / 16)) (char (hexdigit (n mod 16))))).

Fixpoint repr_body (quote : ascii) (s : string) : string :=
  match s with
  | EmptyString => EmptyString
  | String c s' => repr_char quote c ++ repr_body quote s'
  end.

(** The text is quoted with ['] unless it holds a ['] and no double quote. *)
Definition repr (s : string) : string :=
  let quote :=
    if contains squote s && negb (contains dquote s) then dquote else squote in
  String quote (repr_body quote s ++ char quote).

End PyStr.

(** ** [str.format] with the single keyword argument [entity]

    [template.format(entity=e)] scans the template from left to right.
    Literal text is copied, [{{] and [}}] stand for one brace, and [{] opens
    a replacement field [{name!conversion:spec}], which is looked up and
    rendered as soon as its closing brace is read; the first error met raises.
    The scanner below follows CPython's [MarkupIterator_next] and
    [parse_field] as a machine with one state per place in those loops. *)

Module PyFormat.

Import PyStr.

Definition value_error (msg : string) : exn := mkExn ValueError msg.

(** What [get_integer] makes of the first part of a field name. *)
Inductive field_index : Type :=
| NotIndex
| Index (n : N)
| TooManyDigits.

Definition isdigit (c : ascii) : bool :=
  let n := N_of_ascii c in ((48 <=? n) && (n <=? 57))%N.

(** [PY_SSIZE_T_MAX] of a 64-bit build. *)
Definition PY_SSIZE_T_MAX : N := 9223372036854775807.

Fixpoint get_integer_from (acc : N) (s : string) : field_index :=
  match s with
  | EmptyString => Index acc
  | String c s' =>
      if isdigit c then
        let digitval := (N_of_ascii c - 48)%N in
        if ((PY_SSIZE_T_MAX - digitval) / 10 <? acc)%N then TooManyDigits
        else get_integer_from (acc * 10 + digitval)%N s'
      else NotIndex
  end.

Definition get_integer (s : string) : field_index :=
  match s with
  | EmptyString => NotIndex
  | _ => get_integer_from 0%N s
  end.

(** [field_name_split]: the name up to its first [.] or [[], and the rest. *)
Fixpoint field_name_split (s : string) : string * string :=
  match s with
  | EmptyString => (EmptyString, EmptyString)
  | String c s' =>
      if Ascii.eqb c "." || Ascii.eqb c "[" then (EmptyString, s)
      else let (first, rest) := field_name_split s' in (String c first, rest)
  end.

Definition index_error (n : N) : exn :=
  mkExn IndexError
    ("Replacement index " ++ decimal n
       ++ " out of range for positional args tuple").

Section Format.

(** Rendering of a field that reads [entity] through an attribute or an
    index, a conversion or a format specification (the rest of the field
    name, the conversion, the specification, the entity): Python's object
    protocol and format mini-language, which the pipeline only calls. *)
Variable format_field :
  string -> option ascii -> string -> string -> result string.

Variable entity : string.

(** One replacement field, parsed: [get_field_object] on the keyword
    arguments [{entity}] and no positional argument, then the rendering. *)
Definition render_field (name : string) (conv : option ascii) (spec : string)
  : result string :=
  let (first, rest) := field_name_split name in
  match get_integer first with
  | TooManyDigits =>
      Raise (value_error "Too many decimal digits in format string")
  | Index n => Raise (index_error n)
  | NotIndex =>
      match first with
      | EmptyString => Raise (index_error 0)
      | _ =>
          if String.eqb first "entity" then
            match rest, conv, spec with
            | EmptyString, None, EmptyString => Ok entity
            | _, _, _ => format_field rest conv spec entity
            end
          else Raise (mkExn KeyError (repr first))
      end
  end.

Inductive mode : Type :=
| Text                                     (* in literal text *)
| Open                                     (* a [{] was read in literal text *)
| Close                                    (* a [}] was read in literal text *)
| Name (name : string)                     (* in a field name *)
| Bracket (name : string)                  (* in [[...]] inside a field name *)
| Conv (name : string)                     (* a [!] was read *)
| ConvEnd (name : string) (conv : ascii)   (* the conversion was read *)
| Spec (name : string) (conv : option ascii) (depth : nat) (spec : string).

(** What reading one character does. *)
Inductive action : Type :=
| Next (m : mode)                          (* go on in state [m] *)
| Emit (text : string)                     (* literal text, back to [Text] *)
| Field (name : string) (conv : option ascii) (spec : string)
                                           (* a field is complete *)
| Fail (e : exn).

(** One character read in a field name ([parse_field]'s first loop). *)
Definition name_step (name : string) (c : ascii) : action :=
  if Ascii.eqb c "{" then Fail (value_error "unexpected '{' in field name")
  else if Ascii.eqb c "[" then Next (Bracket (name ++ char c))
  else if Ascii.eqb c "}" then Field name None EmptyString
  else if Ascii.eqb c ":" then Next (Spec name None 1 EmptyString)
  else if Ascii.eqb c "!" then Next (Conv name)
  else Next (Name (name ++ char c)).

Definition step (m : mode) (c : ascii) : action :=
  match m with
  | Text =>
      if Ascii.eqb c "{" then Next Open
      else if Ascii.eqb c "}" then Next Close
      else Emit (char c)
  | Open => if Ascii.eqb c "{" then Emit "{" else name_step EmptyString c
  | Close =>
      if Ascii.eqb c "}" then Emit "}"
      else Fail (value_error "Single '}' encountered in format string")
  | Name name => name_step name c
  | Bracket name =>
      if Ascii.eqb c "]" then Next (Name (name ++ char c))
      else Next (Bracket (name ++ char c))
  | Conv name => Next (ConvEnd name c)
  | ConvEnd name conv =>
      if Ascii.eqb c "}" then Field name (Some conv) EmptyString
      else if Ascii.eqb c ":" then Next (Spec name (Some conv) 1 EmptyString)
      else Fail (value_error "expected ':' after conversion specifier")
  | Spec name conv depth spec =>
      if Ascii.eqb c "{" then Next (Spec name conv (S depth) (spec ++ char c))
      else if Ascii.eqb c "}" then
        match depth with
        | 0 | 1 => Field name conv spec
        | S d => Next (Spec name conv d (spec ++ char c))
        end
      else Next (Spec name conv depth (spec ++ char c))
  end.

(** What the end of the template means in each state. *)
Definition at_end (m : mode) (out : string) : result string :=
  match m with
  | Text => Ok out
  | Open => Raise (value_error "Single '{' encountered in format string")
  | Close => Raise (value_error "Single '}' encountered in format string")
  | Name _ | Bracket _ =>
      Raise (value_error "expected '}' before end of string")
  | Conv _ =>
      Raise (value_error "end of string while looking for conversion specifier")
  | ConvEnd _ _ | Spec _ _ _ _ =>
      Raise (value_error "unmatched '{' in format spec")
  end.

(** The scan: [out] is the text produced so far. *)
Fixpoint scan (m : mode) (out : string) (s : string) : result string :=
  match s with
  | EmptyString => at_end m out
  | String c s' =>
      match step m c with
      | Next m' => scan m' out s'
      | Emit text => scan Text (out ++ text) s'
      | Field name conv spec =>
          match render_field name conv spec with
          | Ok text => scan Text (out ++ text) s'
          | Raise e => Raise e
          end
      | Fail e => Raise e
      end
  end.

(** [template.format(entity=entity)] *)
Definition format (template : string) : result string :=
  scan Text EmptyString template.

End Format.

End PyFormat.

(** ** Decoded JSON: the Python objects [response.json()] can return *)

Inductive pyobj : Type :=
| PyNone
| PyBool (b : bool)
| PyInt (n : Z)
| PyFloat (literal : string)
| PyStr (s : string)
| PyList (items : list pyobj)
| PyDict (entries : list (string * pyobj)).

Module PyObj.

Import PyStr.

(** [type(o).__name__] *)
Definition type_name (o : pyobj) : string :=
  match o with
  | PyNone => "NoneType"
  | PyBool _ => "bool"
  | PyInt _ => "int"
  | PyFloat _ => "float"
  | PyStr _ => "str"
  | PyList _ => "list"
  | PyDict _ => "dict"
  end.

(** The entry of a [dict] under [key], in insertion order. *)
Fixpoint lookup (key : string) (entries : list (string * pyobj))
  : option pyobj :=
  match entries with
  | [] => None
  | (k, v) :: rest => if String.eqb k key then Some v else lookup key rest
  end.

(** [o.get(key, default)]: only a [dict] has the method. *)
Definition get (o : pyobj) (key : string) (default : pyobj) : result pyobj :=
  match o with
  | PyDict entries =>
      Ok (match lookup key entries with Some v => v | None => default end)
  | _ =>
      Raise (mkExn AttributeError
               ("'" ++ type_name o ++ "' object has no attribute 'get'"))
  end.

Fixpoint chars (s : string) : list pyobj :=
  match s with
  | EmptyString => []
  | String c s' => PyStr (char c) :: chars s'
  end.

(** [for x in o]: the items of a list, the characters of a string, the keys
    of a dict; nothing else is iterable. *)
Definition iter (o : pyobj) : result (list pyobj) :=
  match o with
  | PyList items => Ok items
  | PyStr s => Ok (chars s)
  | PyDict entries => Ok (map (fun kv => PyStr (fst kv)) entries)
  | _ => Raise (mkExn TypeError ("'" ++ type_name o ++ "' object is not iterable"))
  end.

(** [[f(x) for x in items]]: the first exception ends the comprehension. *)
Fixpoint comprehension (f : pyobj -> result pyobj) (items : list pyobj)
  : result (list pyobj) :=
  match items with
  | [] => Ok []
  | x :: rest =>
      match f x with
      | Raise e => Raise e
      | Ok y =>
          match comprehension f rest with
          | Raise e => Raise e
          | Ok ys => Ok (y :: ys)
          end
      end
  end.

(** The items of a sequence as strings, from position [i] on: [str.join]
    refuses the first item that is not a [str]. *)
Fixpoint strings_from (i : N) (items : list pyobj) : result (list string) :=
  match items with
  | [] => Ok []
  | PyStr s :: rest =>
      match strings_from (i + 1) rest with
      | Raise e => Raise e
      | Ok ss => Ok (s :: ss)
      end
  | o :: _ =>
      Raise (mkExn TypeError
               ("sequence item " ++ decimal i ++ ": expected str instance, "
                  ++ type_name o ++ " found"))
  end.

(** [sep.join(items)] *)
Definition join (sep : string) (items : list pyobj) : result string :=
  match strings_from 0 items with
  | Raise e => Raise e
  | Ok ss => Ok (String.concat sep ss)
  end.

End PyObj.

(** ** The two services, as the client libraries show them *)

(** The [params] dict of the search request. [api_key] is what
    [os.getenv] gave: [None] when the variable is not set. *)
Record search_params : Type := mkParams {
  q : string;
  api_key : option string;
  num : Z
}.

(** What [response.json()] finds in the body. *)
Inductive json_body : Type :=
| Decoded (o : pyobj)
| NotJson (msg : string).

Record response : Type := mkResponse {
  status_code : Z;
  reason : string;
  url : string;
  body : json_body
}.

(** [requests.get] either raises one of the library's exceptions (a
    subclass [sub] of [RequestException], with its text) or returns the
    response. *)
Inductive http_outcome : Type :=
| GetRaises (sub msg : string)
| GetReturns (r : response).

Record chat_message : Type := mkMessage { role : string; content : string }.

Record chat_request : Type := mkRequest {
  model : string;
  messages : list chat_message;
  max_tokens : Z;
  temperature : Q
}.

(** A completion: its choices, each given by the content of its message
    ([None] when the service sent no text). *)
Record completion : Type := mkCompletion { choices : list (option string) }.

Inductive completion_outcome : Type :=
| CreateRaises (e : exn)
| CreateReturns (c : completion).

(** What the pipeline does to the outside, in order. *)
Inductive event : Type :=
| HttpGet (target : string) (params : search_params)
| ChatCreate (req : chat_request)
| SidebarError (msg : string).

Definition trace : Type := list event.

(** The Python runtime and the network: the rendering of a non-trivial
    replacement field (see [PyFormat]), and the answer to a GET request given
    everything that happened before it. *)
Record world : Type := mkWorld {
  format_field : string -> option ascii -> string -> string -> result string;
  http : trace -> string -> search_params -> http_outcome
}.

(** ** Computations *)

Definition M (A : Type) : Type := trace -> result A * trace.

Definition ret {A : Type} (a : A) : M A := fun t => (Ok a, t).

Definition bind {A B : Type} (m : M A) (k : A -> M B) : M B :=
  fun t =>
    match m t with
    | (Ok a, t') => k a t'
    | (Raise e, t') => (Raise e, t')
    end.

(** A pure step that may raise. *)
Definition lift {A : Type} (r : result A) : M A := fun t => (r, t).

(** [try: body except C as e: handler(e)], where [catches e] says whether
    [e] is an instance of [C]. *)
Definition try_except {A : Type} (body : M A) (catches : exn -> bool)
  (handler : exn -> M A) : M A :=
  fun t =>
    match body t with
    | (Raise e, t') => if catches e then handler e t' else (Raise e, t')
    | r => r
    end.

Notation "x <- m ;; k" := (bind m (fun x => k))
  (at level 61, m at next level, right associativity).

(** [st.sidebar.error(msg)] *)
Definition sidebar_error (msg : string) : M unit :=
  fun t => (Ok tt, t ++ [SidebarError msg]).

(** ** The search provider *)

Module Requests.

Import PyStr.

(** [response.raise_for_status()]: an [HTTPError] for a 4xx or 5xx status. *)
Definition raise_for_status (r : response) : result unit :=
  let http_error kind :=
    Raise (mkExn (RequestException "HTTPError")
             (decimal (Z.to_N (status_code r)) ++ " " ++ kind ++ " Error: "
                ++ reason r ++ " for url: " ++ url r)) in
  if ((400 <=? status_code r) && (status_code r <? 500))%Z then
    http_error "Client"
  else if ((500 <=? status_code r) && (status_code r <? 600))%Z then
    http_error "Server"
  else Ok tt.

(** [response.json()]: the decoded body, or the library's
    [JSONDecodeError], which is a [RequestException] (requests 2.27 and
    later). *)
Definition json (r : response) : result pyobj :=
  match body r with
  | Decoded o => Ok o
  | NotJson msg => Raise (mkExn (RequestException "JSONDecodeError") msg)
  end.

End Requests.

Section Pipeline.

Variable w : world.

(** [requests.get(url, params=params)]: the request is issued, and the
    world answers it. *)
Definition requests_get (target : string) (params : search_params)
  : M response :=
  fun t =>
    let t' := t ++ [HttpGet target params] in
    match http w t target params with
    | GetRaises sub msg => (Raise (mkExn (RequestException sub) msg), t')
    | GetReturns r => (Ok r, t')
    end.

(** [prompt.format(entity=entity)] *)
Definition substitute (prompt entity : string) : result string :=
  PyFormat.format (format_field w) entity prompt.

Record WebSearcher : Type := mkWebSearcher { serpapi_key : option string }.

(** The body of the [try] block of [WebSearcher.search]. *)
Definition search_body (self : WebSearcher) (entity prompt : string)
  : M string :=
  let target := "https://serpapi.com/search" in
  query <- lift (substitute prompt entity) ;;
  let params := {| q := query; api_key := serpapi_key self; num := 5 |} in
  response <- requests_get target params ;;
  _ <- lift (Requests.raise_for_status response) ;;
  decoded <- lift (Requests.json response) ;;
  results <- lift (PyObj.get decoded "organic_results" (PyList [])) ;;
  items <- lift (PyObj.iter results) ;;
  snippets <- lift (PyObj.comprehension
                      (fun result => PyObj.get result "snippet" (PyStr ""))
                      items) ;;
  lift (PyObj.join PyStr.nl snippets).

(** [WebSearcher.search] *)
Definition search (self : WebSearcher) (entity prompt : string) : M string :=
  try_except (search_body self entity prompt)
    is_request_exception
    (fun e =>
       _ <- sidebar_error ("Error during web search: " ++ exn_str e) ;;
       ret "").

(** ** The extractor *)

(** [groq_client.chat.completions.create]: the answer of the completion
    service to a request, given everything that happened before it. *)
Record LLMProcessor : Type := mkLLMProcessor {
  groq_client : trace -> chat_request -> completion_outcome
}.

Definition completions_create (self : LLMProcessor) (req : chat_request)
  : M completion :=
  fun t =>
    let t' := t ++ [ChatCreate req] in
    match groq_client self t req with
    | CreateRaises e => (Raise e, t')
    | CreateReturns c => (Ok c, t')
    end.

Definition system_message : chat_message :=
  {| role := "system";
     content := "You are a helpful assistant that extracts specific information from web search results." |}.

Definition user_message (substituted search_results : string) : chat_message :=
  {| role := "user";
     content :=
       "Extract information from the following search results based on the prompt: '"
         ++ substituted ++ "'" ++ PyStr.nl ++ PyStr.nl ++ "Search Results:"
         ++ PyStr.nl ++ search_results ++ PyStr.nl ++ PyStr.nl
         ++ "Extracted Information:" |}.

Definition extraction_request (substituted search_results : string)
  : chat_request :=
  {| model := "mixtral-8x7b-32768";
     messages := [system_message; user_message substituted search_results];
     max_tokens := 150;
     temperature := 0.5%Q |}.

(** [response.choices[0].message.content.strip()] *)
Definition first_choice_text (c : completion) : result string :=
  match choices c with
  | [] => Raise (mkExn IndexError "list index out of range")
  | None :: _ =>
      Raise (mkExn AttributeError "'NoneType' object has no attribute 'strip'")
  | Some text :: _ => Ok (PyStr.strip text)
  end.

(** [LLMProcessor.extract_information]: the messages are built before the
    [try] block is entered. *)
Definition extract_information (self : LLMProcessor)
  (entity prompt search_results : string) : M string :=
  substituted <- lift (substitute prompt entity) ;;
  let req := extraction_request substituted search_results in
  try_except
    (response <- completions_create self req ;;
     lift (first_choice_text response))
    (fun _ => true)
    (fun e =>
       _ <- sidebar_error ("Error during LLM extraction: " ++ exn_str e) ;;
       ret "").

(** ** The pipeline *)

Record DataProcessor : Type := mkDataProcessor {
  web_searcher : WebSearcher;
  llm_processor : LLMProcessor
}.

(** One record of the result: the dict with the keys ["Entity"] and
    ["Extracted Information"]. *)
Record ResultRecord : Type := mkRecord {
  Entity : string;
  Extracted_Information : string
}.

(** The body of the loop of [process_entities]: the record it appends. *)
Definition process_entity (self : DataProcessor) (prompt entity : string)
  : M ResultRecord :=
  search_results <- search (web_searcher self) entity prompt ;;
  if PyStr.truthy search_results then
    extracted_info <-
      extract_information (llm_processor self) entity prompt search_results ;;
    ret {| Entity := entity; Extracted_Information := extracted_info |}
  else
    ret {| Entity := entity; Extracted_Information := "No data found" |}.

(** The loop, with the list [results] built so far. *)
Fixpoint process_loop (self : DataProcessor) (prompt : string)
  (entities : list string) (results : list ResultRecord)
  : M (list ResultRecord) :=
  match entities with
  | [] => ret results
  | entity :: rest =>
      record <- process_entity self prompt entity ;;
      process_loop self prompt rest (results ++ [record])
  end.

(** [DataProcessor.process_entities] *)
Definition process_entities (self : DataProcessor) (entities : list string)
  (prompt : string) : M (list ResultRecord) :=
  process_loop self prompt entities [].

End Pipeline.

(** ** Vocabulary of the properties *)

Definition bind_result {A B : Type} (r : result A) (k : A -> result B)
  : result B :=
  match r with
  | Ok a => k a
  | Raise e => Raise e
  end.

(** What [search] reads from a response it has received: the steps of
    [search_body] after [requests.get]. *)
Definition snippets_text (r : response) : result string :=
  bind_result (Requests.raise_for_status r) (fun _ =>
  bind_result (Requests.json r) (fun decoded =>
  bind_result (PyObj.get decoded "organic_results" (PyList [])) (fun results =>
  bind_result (PyObj.iter results) (fun items =>
  bind_result
    (PyObj.comprehension
       (fun result => PyObj.get result "snippet" (PyStr "")) items)
    (fun snippets => PyObj.join PyStr.nl snippets))))).

Definition search_url : string := "https://serpapi.com/search".

(** The parameters [search] sends for a substituted query. *)
Definition search_request (self : WebSearcher) (query : string)
  : search_params :=
  {| q := query; api_key := serpapi_key self; num := 5 |}.

(** A 4xx or 5xx status. *)
Definition is_http_error (r : response) : bool :=
  ((400 <=? status_code r) && (status_code r <? 600))%Z.

(** The request failed: [requests.get] raised, or the status is an error,
    or the body is not JSON. *)
Definition request_fails (o : http_outcome) : bool :=
  match o with
  | GetRaises _ _ => true
  | GetReturns r =>
      is_http_error r
      || match body r with NotJson _ => true | Decoded _ => false end
  end.

(** The completion failed: the call raised, or the response has no first
    choice, or the first choice has no text. *)
Definition completion_fails (o : completion_outcome) : bool :=
  match o with
  | CreateRaises _ => true
  | CreateReturns c => raised (first_choice_text c)
  end.

(** A result of the search without a [snippet] field. *)
Definition snippetless (o : pyobj) : bool :=
  match o with
  | PyDict entries =>
      match PyObj.lookup "snippet" entries with
      | None => true
      | Some _ => false
      end
  | _ => false
  end.

(** A result of the search as the service documents it: an object whose
    [snippet], when present, is a string. *)
Definition result_shape (o : pyobj) : bool :=
  match o with
  | PyDict entries =>
      match PyObj.lookup "snippet" entries with
      | None | Some (PyStr _) => true
      | Some _ => false
      end
  | _ => false
  end.

(** A decoded body as the service documents it: an object whose
    [organic_results], when present, is an array of results. *)
Definition body_shape (o : pyobj) : bool :=
  match o with
  | PyDict entries =>
      match PyObj.lookup "organic_results" entries with
      | None => true
      | Some (PyList items) => forallb result_shape items
      | Some _ => false
      end
  | _ => false
  end.

Definition response_shape (r : response) : bool :=
  match body r with
  | Decoded o => body_shape o
  | NotJson _ => true
  end.

(** Every response the world returns has the documented shape. *)
Definition well_shaped (w : world) : Prop :=
  forall t target params r,
    http w t target params = GetReturns r -> response_shape r = true.

(** The template substitutes without error for every entity of the list. *)
Definition substitutes (w : world) (prompt : string) (entities : list string)
  : bool :=
  forallb (fun entity => negb (raised (substitute w prompt entity))) entities.

(** The template has a replacement field: a [{] that is not half of [{{]
    and is not the last character. *)
Fixpoint has_placeholder (template : string) : bool :=
  match template with
  | EmptyString => false
  | String "{" (String "{" rest) => has_placeholder rest
  | String "{" (String _ _) => true
  | String _ rest => has_placeholder rest
  end.

Definition brace_free (template : string) : bool :=
  negb (PyStr.contains "{" template) && negb (PyStr.contains "}" template).

Definition is_http_get (e : event) : bool :=
  match e with HttpGet _ _ => true | _ => false end.

Definition is_chat_create (e : event) : bool :=
  match e with ChatCreate _ => true | _ => false end.

Definition is_sidebar_error (e : event) : bool :=
  match e with SidebarError _ => true | _ => false end.

(** The requests to the search service, to the completion service and to
    either of them among some events. *)
Definition http_gets (events : list event) : nat :=
  length (filter is_http_get events).

Definition chat_creates (events : list event) : nat :=
  length (filter is_chat_create events).

Definition external_calls (events : list event) : nat :=
  http_gets events + chat_creates events.

(** [n] line feeds. *)
Fixpoint newlines (n : nat) : string :=
  match n with
  | O => EmptyString
  | S k => String PyStr.LF (newlines k)
  end.

Definition no_data_found : string := "No data found".

(** Whitespace only, whitespace first, whitespace last. *)
Fixpoint all_space (s : string) : bool :=
  match s with
  | EmptyString => true
  | String c s' => PyStr.isspace c && all_space s'
  end.

Definition starts_with_space (s : string) : bool :=
  match s with
  | EmptyString => false
  | String c _ => PyStr.isspace c
  end.

Fixpoint ends_with_space (s : string) : bool :=
  match s with
  | EmptyString => false
  | String c EmptyString => PyStr.isspace c
  | String _ s' => ends_with_space s'
  end.

(** ** A world to run the pipeline in

    The end-to-end scenario of the specification: the search for Acme Corp
    finds one snippet, every other search finds no result; the completion
    service answers every request with the same text.  The pipeline is
    only run here on templates whose fields are plain; this world refuses
    any other field. *)

Module Scenario.

Definition ok_response (o : pyobj) : http_outcome :=
  GetReturns {| status_code := 200; reason := "OK"; url := search_url;
                body := Decoded o |}.

Definition default_prompt : string :=
  "What is the main product or service of {entity}?".

Definition answers (query : string) : pyobj :=
  if String.eqb query "What is the main product or service of Acme Corp?"
  then PyDict [("organic_results",
                PyList [PyDict [("snippet", PyStr "Acme makes widgets.")]])]
  else PyDict [("organic_results", PyList [])].

Definition internet : world :=
  {| format_field := fun _ _ _ _ =>
       Raise (mkExn ValueError "Invalid format specifier");
     http := fun _ _ params => ok_response (answers (q params)) |}.

Definition searcher : WebSearcher := {| serpapi_key := Some "secret" |}.

Definition extractor : LLMProcessor :=
  {| groq_client := fun _ _ =>
       CreateReturns {| choices := [Some " Widgets. "] |} |}.

(** A completion service that is down. *)
Definition broken_extractor : LLMProcessor :=
  {| groq_client := fun _ _ =>
       CreateRaises (mkExn (OtherException "APIConnectionError")
                       "Connection error.") |}.

Definition processor : DataProcessor :=
  {| web_searcher := searcher; llm_processor := extractor |}.

Definition broken_processor : DataProcessor :=
  {| web_searcher := searcher; llm_processor := broken_extractor |}.

(** A world whose every search finds the given results. *)
Definition finding (results : list pyobj) : world :=
  {| format_field := format_field internet;
     http := fun _ _ _ =>
       ok_response (PyDict [("organic_results", PyList results)]) |}.

(** A world whose search service is unreachable. *)
Definition offline : world :=
  {| format_field := format_field internet;
     http := fun _ _ _ => GetRaises "ConnectionError" "Connection refused" |}.

End Scenario.

(** The results of the specification's example of joining: a snippet, a
    result without one, a snippet. *)
Definition a_gap_b : list pyobj :=
  [PyDict [("snippet", PyStr "a")]; PyDict []; PyDict [("snippet", PyStr "b")]].

(** ** The data loaders *)

Section Loaders.

(** The table library and the spreadsheet client are known by their
    interfaces only: the types of their objects, and what each call returns
    or raises. *)
Context {Bytes Text DataFrame : Type}.
Context {Credentials Client Spreadsheet Worksheet : Type}.

(** An uploaded file, by what [uploaded_file.read()] gives. *)
Record UploadedFile : Type := mkUploadedFile { read : result Bytes }.

Record tables : Type := mkTables {
  decode_utf8 : Bytes -> result Text;              (* [raw.decode("utf-8")] *)
  read_csv : Text -> result DataFrame;             (* [pd.read_csv(StringIO(text))] *)
  data_frame : list (list string) -> list string -> result DataFrame
                                                   (* [pd.DataFrame(data, columns=headers)] *)
}.

Record sheets : Type := mkSheets {
  from_service_account_file : string -> list string -> result Credentials;
  authorize : Credentials -> result Client;
  open_by_url : Client -> string -> result Spreadsheet;
  sheet1 : Spreadsheet -> result Worksheet;
  get_all_values : Worksheet -> result (list (list string))
}.

(** [data.pop(0)]: the first item, and the list without it. *)
Definition pop0 {A : Type} (data : list A) : result (A * list A) :=
  match data with
  | [] => Raise (mkExn IndexError "pop from empty list")
  | first :: rest => Ok (first, rest)
  end.

(** [DataLoader.load_csv] *)
Definition load_csv (lib : tables) (uploaded_file : UploadedFile)
  : M (option DataFrame) :=
  try_except
    (raw <- lift (read uploaded_file) ;;
     csv_data <- lift (decode_utf8 lib raw) ;;
     frame <- lift (read_csv lib csv_data) ;;
     ret (Some frame))
    (fun _ => true)
    (fun e =>
       _ <- sidebar_error ("Error reading CSV file: " ++ exn_str e) ;;
       ret None).

(** [DataLoader.load_google_sheet] *)
Definition load_google_sheet (api : sheets) (lib : tables)
  (sheet_url : string) : M (option DataFrame) :=
  try_except
    (creds <- lift (from_service_account_file api
                      "google_sheets_credentials.json"
                      ["https://www.googleapis.com/auth/spreadsheets"]) ;;
     client <- lift (authorize api creds) ;;
     book <- lift (open_by_url api client sheet_url) ;;
     sheet <- lift (sheet1 api book) ;;
     data <- lift (get_all_values api sheet) ;;
     popped <- lift (pop0 data) ;;
     let headers := fst popped in
     let data' := snd popped in
     frame <- lift (data_frame lib data' headers) ;;
     ret (Some frame))
    (fun _ => true)
    (fun e =>
       _ <- sidebar_error ("Error connecting to Google Sheet: " ++ exn_str e) ;;
       ret None).

(** The values [load_google_sheet] reads: the calls to the spreadsheet
    client, up to [sheet.get_all_values()]. *)
Definition sheet_values (api : sheets) (sheet_url : string)
  : result (list (list string)) :=
  bind_result
    (from_service_account_file api "google_sheets_credentials.json"
       ["https://www.googleapis.com/auth/spreadsheets"]) (fun creds =>
  bind_result (authorize api creds) (fun client =>
  bind_result (open_by_url api client sheet_url) (fun book =>
  bind_result (sheet1 api book) (fun sheet =>
  get_all_values api sheet)))).

End Loaders.

Arguments UploadedFile : clear implicits.
Arguments tables : clear implicits.
Arguments sheets : clear implicits.

(** ** More vocabulary *)

(** The snippet a result contributes to the text: its [snippet] when that
    is a string, the empty string when it has none. *)
Definition snippet_of (o : pyobj) : string :=
  match o with
  | PyDict entries =>
      match PyObj.lookup "snippet" entries with
      | Some (PyStr s) => s
      | _ => EmptyString
      end
  | _ => EmptyString
  end.

(** The results listed in a decoded body: none when the key is missing. *)
Definition organic_results_of (entries : list (string * pyobj))
  : option (list pyobj) :=
  match PyObj.lookup "organic_results" entries with
  | None => Some []
  | Some (PyList items) => Some items
  | Some _ => None
  end.

(** A text with every brace doubled. *)
Fixpoint escape (s : string) : string :=
  match s with
  | EmptyString => EmptyString
  | String c s' =>
      if Ascii.eqb c "{" || Ascii.eqb c "}"
      then String c (String c (escape s'))
      else String c (escape s')
  end.

(** An event that is no message on the sidebar. *)
Definition is_quiet (e : event) : bool := negb (is_sidebar_error e).

(** The queries of the GET requests among some events, in order. *)
Fixpoint get_queries (events : list event) : list string :=
  match events with
  | [] => []
  | HttpGet _ params :: rest => q params :: get_queries rest
  | _ :: rest => get_queries rest
  end.

(** The substituted template, when the substitution succeeds. *)
Definition substituted (w : world) (prompt entity : string) : string :=
  match substitute w prompt entity with
  | Ok query => query
  | Raise _ => EmptyString
  end.

(** A world whose search service answers every request with a response
    that is not an error and has a body of the documented shape. *)
Definition healthy (w : world) : Prop :=
  forall t target params,
    exists r o,
      http w t target params = GetReturns r
      /\ is_http_error r = false
      /\ body r = Decoded o
      /\ body_shape o = true.

(** A completion client that always answers with a text. *)
Definition dependable (llm : LLMProcessor) : Prop :=
  forall t req, completion_fails (groq_client llm t req) = false.

Module Scenario2.

(** A world in which the search for Acme Corp finds one snippet and every
    other search finds a result whose snippet is null. *)
Definition null_after_acme : world :=
  {| format_field := format_field Scenario.internet;
     http := fun _ _ params =>
       if String.eqb (q params)
            "What is the main product or service of Acme Corp?"
       then Scenario.ok_response (Scenario.answers (q params))
       else Scenario.ok_response
              (PyDict [("organic_results",
                        PyList [PyDict [("snippet", PyNone)]])]) |}.

(** A completion service that answers with blanks. *)
Definition blank_extractor : LLMProcessor :=
  {| groq_client := fun _ _ =>
       CreateReturns {| choices := [Some "  "] |} |}.

(** Table and spreadsheet libraries over lists of rows: a table is its
    header and its rows; bytes are text already. *)
Definition frames : tables string string (list string * list (list string)) :=
  {| decode_utf8 := fun raw => Ok raw;
     read_csv := fun text =>
       match text with
       | EmptyString =>
           Raise (mkExn (OtherException "EmptyDataError")
                    "No columns to parse from file")
       | _ => Ok ([text], [])
       end;
     data_frame := fun data headers => Ok (headers, data) |}.

(** A spreadsheet service whose every sheet holds the given values. *)
Definition sheet_of (values : list (list string))
  : sheets unit unit unit unit :=
  {| from_service_account_file := fun _ _ => Ok tt;
     authorize := fun _ => Ok tt;
     open_by_url := fun _ _ => Ok tt;
     sheet1 := fun _ => Ok tt;
     get_all_values := fun _ => Ok values |}.

End Scenario2.

(** ** What one call does *)

(** One step of a [try] body: either it returns and the proof goes on, or
    it raises and the handler decides. *)
Ltac step_or_raise r :=
  destruct r; [|destruct (is_request_exception _); reflexivity].

Ltac step_or_raise_next :=
  match goal with
  | |- context [match PyObj.get ?o ?k ?d with _ => _ end] =>
      step_or_raise (PyObj.get o k d)
  | |- context [match PyObj.iter ?o with _ => _ end] =>
      step_or_raise (PyObj.iter o)
  | |- context [match PyObj.comprehension ?f ?l with _ => _ end] =>
      step_or_raise (PyObj.comprehension f l)
  | |- context [match PyObj.join ?s ?l with _ => _ end] =>
      step_or_raise (PyObj.join s l)
  end.

Section Calls.

Variable w : world.

(** [search], case by case: the substitution, the request, the reading of
    the response, and the handler for the library's exceptions. *)
Lemma search_eq (self : WebSearcher) (entity prompt : string) (t : trace) :
  search w self entity prompt t =
  let handled e t' :=
    if is_request_exception e
    then (Ok "", t' ++ [SidebarError ("Error during web search: " ++ exn_str e)])
    else (Raise e, t') in
  match substitute w prompt entity with
  | Raise e => handled e t
  | Ok query =>
      let t1 := t ++ [HttpGet search_url (search_request self query)] in
      match http w t search_url (search_request self query) with
      | GetRaises sub msg => handled (mkExn (RequestException sub) msg) t1
      | GetReturns r =>
          match snippets_text r with
          | Ok text => (Ok text, t1)
          | Raise e => handled e t1
          end
      end
  end.
Proof.
  unfold search, try_except, search_body, bind, lift, requests_get,
    sidebar_error, ret, search_url, search_request.
  destruct (substitute w prompt entity) as [query|e]; cbn zeta.
  2: { destruct (is_request_exception e); reflexivity. }
  destruct (http w t _ _) as [sub msg|r]; [reflexivity|].
  unfold snippets_text, bind_result.
  step_or_raise (Requests.raise_for_status r).
  step_or_raise (Requests.json r).
  repeat step_or_raise_next.
  reflexivity.
Qed.

(** [extract_information], case by case. *)
Lemma extract_information_eq (self : LLMProcessor)
  (entity prompt search_results : string) (t : trace) :
  extract_information w self entity prompt search_results t =
  match substitute w prompt entity with
  | Raise e => (Raise e, t)
  | Ok substituted =>
      let req := extraction_request substituted search_results in
      let t1 := t ++ [ChatCreate req] in
      let handled e :=
        (Ok "", t1 ++ [SidebarError ("Error during LLM extraction: " ++ exn_str e)]) in
      match groq_client self t req with
      | CreateRaises e => handled e
      | CreateReturns c =>
          match first_choice_text c with
          | Ok text => (Ok text, t1)
          | Raise e => handled e
          end
      end
  end.
Proof.
  unfold extract_information, try_except, bind, lift, completions_create,
    sidebar_error, ret.
  destruct (substitute w prompt entity) as [substituted|e]; [|reflexivity].
  cbn zeta.
  destruct (groq_client self t _) as [e|c]; [reflexivity|].
  destruct (first_choice_text c); reflexivity.
Qed.

(** The loop body, in terms of the two calls: [extract_information] is
    reached only with the text [search] returned, when it is not empty. *)
Lemma process_entity_eq (self : DataProcessor) (prompt entity : string)
  (t : trace) :
  process_entity w self prompt entity t =
  match search w (web_searcher self) entity prompt t with
  | (Raise e, t1) => (Raise e, t1)
  | (Ok search_results, t1) =>
      if PyStr.truthy search_results then
        match extract_information w (llm_processor self) entity prompt
                search_results t1 with
        | (Ok extracted_info, t2) =>
            (Ok {| Entity := entity; Extracted_Information := extracted_info |},
             t2)
        | (Raise e, t2) => (Raise e, t2)
        end
      else
        (Ok {| Entity := entity; Extracted_Information := no_data_found |}, t1)
  end.
Proof.
  unfold process_entity, bind, ret.
  destruct (search w _ entity prompt t) as [[s|e] t1]; [|reflexivity].
  destruct (PyStr.truthy s); reflexivity.
Qed.

(** The accumulator of the loop only prefixes what the loop adds. *)
Lemma process_loop_acc (self : DataProcessor) (prompt : string)
  (entities : list string) :
  forall (results : list ResultRecord) (t : trace),
    process_loop w self prompt entities results t =
    match process_loop w self prompt entities [] t with
    | (Ok added, t') => (Ok (results ++ added), t')
    | (Raise e, t') => (Raise e, t')
    end.
Proof.
  induction entities as [|entity rest IH]; intros results t.
  - cbn. unfold ret. now rewrite app_nil_r.
  - cbn [process_loop]. unfold bind.
    destruct (process_entity w self prompt entity t) as [[record|e] t1];
      [|reflexivity].
    rewrite (IH (results ++ [record])), (IH ([] ++ [record])).
    destruct (process_loop w self prompt rest [] t1) as [[added|e] t2];
      [|reflexivity].
    now rewrite <- app_assoc.
Qed.

(** [process_entities] on a non-empty list: the first entity, then the rest. *)
Lemma process_entities_cons (self : DataProcessor) (prompt entity : string)
  (rest : list string) (t : trace) :
  process_entities w self (entity :: rest) prompt t =
  match process_entity w self prompt entity t with
  | (Raise e, t1) => (Raise e, t1)
  | (Ok record, t1) =>
      match process_entities w self rest prompt t1 with
      | (Ok records, t2) => (Ok (record :: records), t2)
      | (Raise e, t2) => (Raise e, t2)
      end
  end.
Proof.
  unfold process_entities. cbn [process_loop]. unfold bind.
  destruct (process_entity w self prompt entity t) as [[record|e] t1];
    [|reflexivity].
  now rewrite process_loop_acc.
Qed.

End Calls.

(** ** Reading a response *)

Lemma raise_for_status_ok (r : response) :
  is_http_error r = false -> Requests.raise_for_status r = Ok tt.
Proof.
  unfold is_http_error, Requests.raise_for_status. intros H.
  destruct ((400 <=? status_code r) && (status_code r <? 500))%Z eqn:E4.
  - exfalso. apply andb_true_iff in E4 as [Ha Hb].
    apply andb_false_iff in H as [H|H]; [congruence|].
    apply Z.ltb_lt in Hb. apply Z.ltb_ge in H. lia.
  - destruct ((500 <=? status_code r) && (status_code r <? 600))%Z eqn:E5;
      [|reflexivity].
    exfalso. apply andb_true_iff in E5 as [Ha Hb].
    apply andb_false_iff in H as [H|H]; [|congruence].
    apply Z.leb_le in Ha. apply Z.leb_gt in H. lia.
Qed.

Lemma raise_for_status_error (r : response) :
  is_http_error r = true ->
  exists e, Requests.raise_for_status r = Raise e
            /\ is_request_exception e = true.
Proof.
  unfold is_http_error, Requests.raise_for_status. intros H.
  destruct ((400 <=? status_code r) && (status_code r <? 500))%Z eqn:E4;
    [eexists; split; reflexivity|].
  destruct ((500 <=? status_code r) && (status_code r <? 600))%Z eqn:E5;
    [eexists; split; reflexivity|].
  exfalso. apply andb_true_iff in H as [Ha Hb].
  apply andb_false_iff in E4 as [E4|E4]; [congruence|].
  apply andb_false_iff in E5 as [E5|E5]; [|congruence].
  apply Z.ltb_ge in E4. apply Z.leb_gt in E5. lia.
Qed.

(** [raise_for_status] raises nothing but the library's own exception. *)
Lemma raise_for_status_class (r : response) (e : exn) :
  Requests.raise_for_status r = Raise e -> is_request_exception e = true.
Proof.
  destruct (is_http_error r) eqn:E.
  - destruct (raise_for_status_error r E) as [e' [-> He]]. congruence.
  - rewrite (raise_for_status_ok r E). discriminate.
Qed.

(** A response that failed is read as one of the library's exceptions. *)
Lemma snippets_text_failed (r : response) :
  request_fails (GetReturns r) = true ->
  exists e, snippets_text r = Raise e /\ is_request_exception e = true.
Proof.
  cbn [request_fails]. intros H. unfold snippets_text.
  destruct (Requests.raise_for_status r) as [[]|e] eqn:Es.
  - destruct (is_http_error r) eqn:Eh.
    + destruct (raise_for_status_error r Eh) as [e [He _]]. congruence.
    + cbn in H. unfold Requests.json, bind_result at 1 2.
      destruct (body r); [discriminate|].
      eexists; split; reflexivity.
  - exists e. split; [reflexivity|]. eapply raise_for_status_class; eauto.
Qed.

(** The snippets of results of the documented shape: every result yields a
    string. *)
Lemma comprehension_shape (items : list pyobj) :
  forallb result_shape items = true ->
  exists snippets,
    PyObj.comprehension (fun result => PyObj.get result "snippet" (PyStr ""))
      items = Ok (map PyStr snippets)
    /\ length snippets = length items.
Proof.
  induction items as [|item rest IH]; intros H.
  - exists []. split; reflexivity.
  - cbn [forallb] in H. apply andb_true_iff in H as [Hi Hr].
    destruct (IH Hr) as [snippets [Hc Hl]].
    destruct item as [| | | | |entries|entries]; try discriminate.
    cbn [PyObj.comprehension PyObj.get]. cbn [result_shape] in Hi.
    rewrite Hc.
    destruct (PyObj.lookup "snippet" entries) as [[| | | |s| |]|];
      try discriminate.
    + exists (s :: snippets). split; [reflexivity|]. cbn. now rewrite Hl.
    + exists (EmptyString :: snippets). split; [reflexivity|]. cbn. now rewrite Hl.
Qed.

Lemma strings_from_strs (snippets : list string) :
  forall i, PyObj.strings_from i (map PyStr snippets) = Ok snippets.
Proof.
  induction snippets as [|s rest IH]; intros i; [reflexivity|].
  cbn [map PyObj.strings_from]. now rewrite IH.
Qed.

Lemma join_strs (sep : string) (snippets : list string) :
  PyObj.join sep (map PyStr snippets) = Ok (String.concat sep snippets).
Proof. unfold PyObj.join. now rewrite strings_from_strs. Qed.

(** A response of the documented shape is read without any exception but
    the library's. *)
Lemma snippets_text_shape (r : response) (e : exn) :
  response_shape r = true ->
  snippets_text r = Raise e -> is_request_exception e = true.
Proof.
  unfold response_shape, snippets_text. intros Hs.
  destruct (Requests.raise_for_status r) as [[]|e0] eqn:Es.
  2: { cbn. intros [= <-]. eapply raise_for_status_class; eauto. }
  unfold Requests.json, bind_result at 1 2.
  destruct (body r) as [o|msg]; [|cbn; now intros [= <-]].
  destruct o as [| | | | | |entries]; try discriminate.
  cbn [body_shape] in Hs. cbn [PyObj.get bind_result].
  destruct (PyObj.lookup "organic_results" entries) as [results|].
  - destruct results as [| | | | |items|]; try discriminate.
    cbn [PyObj.iter bind_result].
    destruct (comprehension_shape items Hs) as [snippets [-> _]].
    cbn [bind_result]. now rewrite join_strs.
  - cbn. discriminate.
Qed.

(** A successful response whose body holds a list of results is read by
    the comprehension and the join alone. *)
Lemma snippets_text_results (r : response)
  (entries : list (string * pyobj)) (items : list pyobj) :
  is_http_error r = false ->
  body r = Decoded (PyDict entries) ->
  PyObj.lookup "organic_results" entries = Some (PyList items) ->
  snippets_text r =
  bind_result
    (PyObj.comprehension
       (fun result => PyObj.get result "snippet" (PyStr "")) items)
    (PyObj.join PyStr.nl).
Proof.
  intros Hs Hb Hl. unfold snippets_text, Requests.json.
  rewrite (raise_for_status_ok r Hs), Hb. cbn [bind_result PyObj.get].
  rewrite Hl. reflexivity.
Qed.

(** Results without a snippet each contribute an empty string. *)
Lemma comprehension_snippetless (items : list pyobj) :
  forallb snippetless items = true ->
  PyObj.comprehension (fun result => PyObj.get result "snippet" (PyStr ""))
    items = Ok (map PyStr (repeat EmptyString (length items))).
Proof.
  induction items as [|item rest IH]; intros H; [reflexivity|].
  cbn [forallb] in H. apply andb_true_iff in H as [Hi Hr].
  destruct item as [| | | | | |entries]; try discriminate.
  cbn [PyObj.comprehension PyObj.get]. cbn [snippetless] in Hi.
  rewrite (IH Hr).
  destruct (PyObj.lookup "snippet" entries); [discriminate|reflexivity].
Qed.

(** Joining [n + 1] empty strings with line feeds gives [n] line feeds. *)
Lemma concat_empty_strings (n : nat) :
  String.concat PyStr.nl (repeat EmptyString (S n)) = newlines n.
Proof.
  induction n as [|n IH]; [reflexivity|].
  change (repeat EmptyString (S (S n)))
    with (EmptyString :: repeat EmptyString (S n)).
  cbn [String.concat]. cbn [repeat] in IH |- *. rewrite IH. reflexivity.
Qed.

(** ** Strings *)

Lemma append_assoc (a b c : string) : ((a ++ b) ++ c = a ++ b ++ c)%string.
Proof. induction a as [|x a IH]; cbn; [reflexivity|now rewrite IH]. Qed.

Lemma append_empty_r (a : string) : (a ++ "")%string = a.
Proof. induction a as [|x a IH]; cbn; [reflexivity|now rewrite IH]. Qed.

Lemma truthy_not_empty (s : string) : PyStr.truthy s = true <-> s <> "".
Proof. destruct s; cbn; split; congruence. Qed.

(** [lstrip] removes a prefix of whitespace, and all of it. *)
Lemma lstrip_spec (s : string) :
  exists l, s = (l ++ PyStr.lstrip s)%string
            /\ all_space l = true
            /\ starts_with_space (PyStr.lstrip s) = false.
Proof.
  induction s as [|c s IH].
  - exists "". repeat split.
  - cbn [PyStr.lstrip]. destruct (PyStr.isspace c) eqn:Ec.
    + destruct IH as [l [Hs [Hl Hn]]]. exists (String c l).
      cbn. rewrite Ec, Hl. repeat split; [now f_equal|assumption].
    + exists "". cbn. now rewrite Ec.
Qed.

(** [rstrip] removes a suffix of whitespace, and all of it. *)
Lemma rstrip_spec (s : string) :
  exists r, s = (PyStr.rstrip s ++ r)%string
            /\ all_space r = true
            /\ ends_with_space (PyStr.rstrip s) = false.
Proof.
  induction s as [|c s IH].
  - exists "". repeat split.
  - destruct IH as [r [Hs [Hr Hn]]]. cbn [PyStr.rstrip].
    destruct (PyStr.rstrip s) as [|d u] eqn:Eu.
    + cbn in Hs. subst r. destruct (PyStr.isspace c) eqn:Ec.
      * exists (String c s). cbn. now rewrite Ec, Hr.
      * exists s. cbn. now rewrite Ec, Hr.
    + exists r. cbn [append] in Hs |- *. rewrite <- Hs.
      repeat split; assumption.
Qed.

Lemma rstrip_keeps_start (s : string) :
  starts_with_space s = false ->
  starts_with_space (PyStr.rstrip s) = false.
Proof.
  destruct s as [|c s]; [reflexivity|]. cbn [starts_with_space PyStr.rstrip].
  intros Hc. destruct (PyStr.rstrip s); [now rewrite Hc|assumption].
Qed.

(** [strip] removes the whitespace at both ends, all of it and nothing
    else. *)
Lemma strip_spec (s : string) :
  exists l r, s = (l ++ PyStr.strip s ++ r)%string
              /\ all_space l = true /\ all_space r = true
              /\ starts_with_space (PyStr.strip s) = false
              /\ ends_with_space (PyStr.strip s) = false.
Proof.
  destruct (lstrip_spec s) as [l [Hs [Hl Hn]]].
  destruct (rstrip_spec (PyStr.lstrip s)) as [r [Hs' [Hr Hn']]].
  exists l, r. unfold PyStr.strip. repeat split; try assumption.
  - now rewrite <- Hs'.
  - now apply rstrip_keeps_start.
Qed.

(** ** Templates without braces *)

Lemma brace_free_cons (c : ascii) (s : string) :
  brace_free (String c s) = true ->
  Ascii.eqb c "{" = false /\ Ascii.eqb c "}" = false /\ brace_free s = true.
Proof.
  unfold brace_free. cbn [PyStr.contains]. intros H.
  apply andb_true_iff in H as [Ho Hc].
  apply negb_true_iff, orb_false_iff in Ho as [Ho Ho'].
  apply negb_true_iff, orb_false_iff in Hc as [Hc Hc'].
  rewrite Ascii.eqb_sym in Ho. rewrite Ascii.eqb_sym in Hc.
  now rewrite Ho, Hc, Ho', Hc'.
Qed.

Lemma scan_brace_free
  (ff : string -> option ascii -> string -> string -> result string)
  (entity : string) (s : string) :
  forall out,
    brace_free s = true ->
    PyFormat.scan ff entity PyFormat.Text out s = Ok (out ++ s)%string.
Proof.
  induction s as [|c s IH]; intros out H.
  - cbn. now rewrite append_empty_r.
  - apply brace_free_cons in H as [Ho [Hc Hs]].
    cbn [PyFormat.scan PyFormat.step]. rewrite Ho, Hc.
    rewrite (IH _ Hs). unfold PyStr.char. now rewrite append_assoc.
Qed.

(** A template without braces substitutes to itself. *)
Lemma substitute_brace_free (w : world) (prompt entity : string) :
  brace_free prompt = true -> substitute w prompt entity = Ok prompt.
Proof.
  intros H. unfold substitute, PyFormat.format.
  now rewrite (scan_brace_free _ _ _ "" H).
Qed.

(** A template without braces has no replacement field. *)
Lemma brace_free_no_placeholder (template : string) :
  brace_free template = true -> has_placeholder template = false.
Proof.
  induction template as [|c s IH]; [reflexivity|]. intros H.
  apply brace_free_cons in H as [Ho [_ Hs]].
  cbn [has_placeholder].
  destruct c as [[] [] [] [] [] [] [] []]; try (now apply IH); discriminate.
Qed.

(** ** The events of one call *)

Section Events.

Variable w : world.

(** [search] issues at most one request to the search service and none to
    the completion service. *)
Lemma search_events (self : WebSearcher) (entity prompt : string) (t : trace) :
  exists events,
    snd (search w self entity prompt t) = t ++ events
    /\ chat_creates events = 0 /\ http_gets events <= 1.
Proof.
  rewrite search_eq. cbv zeta.
  destruct (substitute w prompt entity) as [query|e].
  - destruct (http w t _ _) as [sub msg|r].
    + cbn. rewrite <- app_assoc. eexists. split; [reflexivity|]. cbn. lia.
    + destruct (snippets_text r) as [text|e].
      * eexists. split; [reflexivity|]. cbn. lia.
      * destruct (is_request_exception e); cbn; rewrite <- ?app_assoc;
          eexists; (split; [reflexivity|]); cbn; lia.
  - destruct (is_request_exception e); cbn.
    + eexists. split; [reflexivity|]. cbn. lia.
    + exists []. rewrite app_nil_r. cbn. repeat split; lia.
Qed.

(** Once the template is substituted, [search] issues its request, and
    nothing else but a message to the sidebar. *)
Lemma search_substituted (self : WebSearcher) (entity prompt : string)
  (t : trace) (query : string) :
  substitute w prompt entity = Ok query ->
  exists tail,
    snd (search w self entity prompt t)
    = t ++ HttpGet search_url (search_request self query) :: tail
    /\ forallb is_sidebar_error tail = true.
Proof.
  intros Hq. rewrite search_eq, Hq. cbv zeta.
  destruct (http w t _ _) as [sub msg|r].
  - cbn. rewrite <- app_assoc. eexists. split; reflexivity.
  - destruct (snippets_text r) as [text|e].
    + exists []. split; reflexivity.
    + destruct (is_request_exception e); cbn; rewrite <- ?app_assoc.
      * eexists. split; reflexivity.
      * exists []. split; reflexivity.
Qed.

(** A non-empty text returned by [search] was read from a response: the
    template was substituted, the request was issued and answered. *)
Lemma search_truthy (self : WebSearcher) (entity prompt : string)
  (t t1 : trace) (text : string) :
  search w self entity prompt t = (Ok text, t1) ->
  PyStr.truthy text = true ->
  exists query r,
    substitute w prompt entity = Ok query
    /\ http w t search_url (search_request self query) = GetReturns r
    /\ snippets_text r = Ok text
    /\ t1 = t ++ [HttpGet search_url (search_request self query)].
Proof.
  rewrite search_eq. cbv zeta. intros H Ht.
  destruct (substitute w prompt entity) as [query|e].
  - destruct (http w t _ _) as [sub msg|r] eqn:Eh.
    + cbn in H. injection H as <- _. discriminate.
    + destruct (snippets_text r) as [text'|e] eqn:Es.
      * injection H as <- <-. now exists query, r.
      * destruct (is_request_exception e); [|discriminate].
        injection H as <- _. discriminate.
  - destruct (is_request_exception e); [|discriminate].
    injection H as <- _. discriminate.
Qed.

(** Once the template is substituted, [extract_information] issues its
    request, returns a text, and does nothing else but write to the
    sidebar. *)
Lemma extract_substituted (self : LLMProcessor)
  (entity prompt search_results : string) (t : trace) (substituted : string) :
  substitute w prompt entity = Ok substituted ->
  exists text tail,
    extract_information w self entity prompt search_results t
    = (Ok text,
       t ++ ChatCreate (extraction_request substituted search_results) :: tail)
    /\ forallb is_sidebar_error tail = true.
Proof.
  intros Hq. rewrite extract_information_eq, Hq. cbv zeta.
  destruct (groq_client self t _) as [e|c].
  - rewrite <- app_assoc. do 2 eexists. split; reflexivity.
  - destruct (first_choice_text c) as [text|e].
    + exists text, []. split; reflexivity.
    + rewrite <- app_assoc. do 2 eexists. split; reflexivity.
Qed.

(** A failed completion is turned into the empty string and a message. *)
Lemma extract_failed (self : LLMProcessor)
  (entity prompt search_results : string) (t : trace) (substituted : string) :
  substitute w prompt entity = Ok substituted ->
  completion_fails
    (groq_client self t (extraction_request substituted search_results))
  = true ->
  exists msg,
    extract_information w self entity prompt search_results t
    = (Ok "",
       t ++ [ChatCreate (extraction_request substituted search_results);
             SidebarError msg]).
Proof.
  intros Hq Hf. rewrite extract_information_eq, Hq. cbv zeta.
  destruct (groq_client self t _) as [e|c]; cbn in Hf.
  - rewrite <- app_assoc. eexists. reflexivity.
  - destruct (first_choice_text c) as [text|e]; [discriminate|].
    rewrite <- app_assoc. eexists. reflexivity.
Qed.

(** A completion with a text in its first choice is returned trimmed. *)
Lemma extract_succeeded (self : LLMProcessor)
  (entity prompt search_results : string) (t : trace) (substituted : string)
  (c : completion) (text : string) (others : list (option string)) :
  substitute w prompt entity = Ok substituted ->
  groq_client self t (extraction_request substituted search_results)
  = CreateReturns c ->
  choices c = Some text :: others ->
  extract_information w self entity prompt search_results t
  = (Ok (PyStr.strip text),
     t ++ [ChatCreate (extraction_request substituted search_results)]).
Proof.
  intros Hq Hc Ht. rewrite extract_information_eq, Hq. cbv zeta.
  rewrite Hc. unfold first_choice_text. now rewrite Ht.
Qed.

(** On a world of the documented shape, a substituted [search] returns. *)
Lemma search_returns (self : WebSearcher) (entity prompt : string)
  (t : trace) (query : string) :
  well_shaped w ->
  substitute w prompt entity = Ok query ->
  exists text t1, search w self entity prompt t = (Ok text, t1).
Proof.
  intros Hw Hq. rewrite search_eq, Hq. cbv zeta.
  destruct (http w t _ _) as [sub msg|r] eqn:Eh.
  - cbn. do 2 eexists. reflexivity.
  - destruct (snippets_text r) as [text|e] eqn:Es.
    + do 2 eexists. reflexivity.
    + rewrite (snippets_text_shape r e (Hw _ _ _ _ Eh) Es).
      do 2 eexists. reflexivity.
Qed.

(** ... and so does the loop body. *)
Lemma process_entity_returns (self : DataProcessor) (prompt entity : string)
  (t : trace) (query : string) :
  well_shaped w ->
  substitute w prompt entity = Ok query ->
  exists info t1,
    process_entity w self prompt entity t
    = (Ok {| Entity := entity; Extracted_Information := info |}, t1).
Proof.
  intros Hw Hq. rewrite process_entity_eq.
  destruct (search_returns (web_searcher self) entity prompt t query Hw Hq)
    as [text [t1 ->]].
  destruct (PyStr.truthy text).
  - destruct (extract_substituted (llm_processor self) entity prompt text t1
                query Hq) as [info [tail [-> _]]].
    do 2 eexists. reflexivity.
  - do 2 eexists. reflexivity.
Qed.

End Events.

(** ** The pipeline keeps every entity *)

Lemma substitutes_cons (w : world) (prompt entity : string)
  (rest : list string) :
  substitutes w prompt (entity :: rest) = true ->
  (exists query, substitute w prompt entity = Ok query)
  /\ substitutes w prompt rest = true.
Proof.
  unfold substitutes. cbn [forallb]. intros H.
  apply andb_true_iff in H as [He Hr]. split; [|assumption].
  destruct (substitute w prompt entity) as [query|e]; [|discriminate].
  now exists query.
Qed.

Lemma substitutes_in (w : world) (prompt entity : string)
  (entities : list string) :
  substitutes w prompt entities = true -> In entity entities ->
  exists query, substitute w prompt entity = Ok query.
Proof.
  unfold substitutes. intros H Hin.
  rewrite forallb_forall in H. specialize (H entity Hin).
  destruct (substitute w prompt entity) as [query|e]; [|discriminate].
  now exists query.
Qed.

(** When every substitution succeeds and the responses have the documented
    shape, the loop returns one record per entity, in order. *)
Lemma process_entities_returns (w : world) (self : DataProcessor)
  (prompt : string) (entities : list string) :
  well_shaped w ->
  substitutes w prompt entities = true ->
  forall t, exists records t',
    process_entities w self entities prompt t = (Ok records, t')
    /\ map Entity records = entities.
Proof.
  intros Hw. induction entities as [|entity rest IH]; intros Hs t.
  - exists [], t. split; reflexivity.
  - apply substitutes_cons in Hs as [[query Hq] Hr].
    rewrite process_entities_cons.
    destruct (process_entity_returns w self prompt entity t query Hw Hq)
      as [info [t1 ->]].
    destruct (IH Hr t1) as [records [t2 [-> Hm]]].
    do 2 eexists. split; [reflexivity|]. cbn. now rewrite Hm.
Qed.

Lemma internet_well_shaped : well_shaped Scenario.internet.
Proof.
  intros t target params r H. cbn in H. injection H as <-.
  unfold response_shape, Scenario.answers. cbn [body].
  destruct (String.eqb _ _); reflexivity.
Qed.

Lemma offline_well_shaped : well_shaped Scenario.offline.
Proof. intros t target params r H. discriminate. Qed.

(** C1, as stated, fails: with a template whose field is not [entity] the
    substitution raises inside [search], nothing catches the [KeyError], and
    [process_entities] returns no list at all.  The same happens, with the
    default template, when a result of the search has a null snippet: the
    join raises a [TypeError]. *)
Lemma process_entities_returns_no_list_on_bad_template :
  process_entities Scenario.internet Scenario.processor
    ["Acme Corp"; "Globex"] "What does {company} sell?" []
  = (Raise (mkExn KeyError "'company'"), [])
  /\ ~ (exists records t',
          process_entities Scenario.internet Scenario.processor
            ["Acme Corp"; "Globex"] "What does {company} sell?" []
          = (Ok records, t')
          /\ length records = 2)
  /\ fst (process_entities (Scenario.finding [PyDict [("snippet", PyNone)]])
            Scenario.processor ["Acme Corp"] Scenario.default_prompt [])
     = Raise (mkExn TypeError
                "sequence item 0: expected str instance, NoneType found").
Proof.
  assert (H : process_entities Scenario.internet Scenario.processor
                ["Acme Corp"; "Globex"] "What does {company} sell?" []
              = (Raise (mkExn KeyError "'company'"), []))
    by (vm_compute; reflexivity).
  split; [exact H|]. split; [|vm_compute; reflexivity].
  intros [records [t' [H' _]]]. congruence.
Qed.

(** C1, amended: for every list of entities and every template that
    substitutes without error for each of them, in a world whose responses
    have the documented shape, [process_entities] returns a list as long as
    the input whose i-th record has the i-th entity in its [Entity] field,
    whatever requests or completions fail. *)
Theorem process_entities_keeps_every_entity (w : world) (self : DataProcessor)
  (entities : list string) (prompt : string) (t : trace) :
  well_shaped w ->
  substitutes w prompt entities = true ->
  exists records t',
    process_entities w self entities prompt t = (Ok records, t')
    /\ length records = length entities
    /\ forall i, nth_error (map Entity records) i = nth_error entities i.
Proof.
  intros Hw Hs.
  destruct (process_entities_returns w self prompt entities Hw Hs t)
    as [records [t' [Hr Hm]]].
  exists records, t'. split; [exact Hr|]. split.
  - rewrite <- Hm. symmetry. apply length_map.
  - intros i. now rewrite Hm.
Qed.

(** The theorem at work: duplicates and the empty entity are kept, while
    the completion service is down. *)
Lemma process_entities_keeps_every_entity_witness :
  exists records t',
    process_entities Scenario.internet Scenario.broken_processor
      ["Acme Corp"; ""; "Acme Corp"; "Globex"] Scenario.default_prompt []
    = (Ok records, t')
    /\ length records = 4
    /\ forall i, nth_error (map Entity records) i
                 = nth_error ["Acme Corp"; ""; "Acme Corp"; "Globex"] i.
Proof.
  apply (process_entities_keeps_every_entity Scenario.internet
           Scenario.broken_processor
           ["Acme Corp"; ""; "Acme Corp"; "Globex"] Scenario.default_prompt []).
  - exact internet_well_shaped.
  - vm_compute. reflexivity.
Defined.

(** ** Joining the snippets *)

(** C2, as stated, fails: the result without a snippet contributes an
    empty string, which is joined like the others, so the text has two line
    feeds between [a] and [b]. *)
Lemma search_keeps_a_line_for_missing_snippet :
  fst (search (Scenario.finding a_gap_b) Scenario.searcher "Acme Corp"
         Scenario.default_prompt [])
  = Ok ("a" ++ PyStr.nl ++ PyStr.nl ++ "b")%string
  /\ fst (search (Scenario.finding a_gap_b) Scenario.searcher "Acme Corp"
            Scenario.default_prompt [])
     <> Ok ("a" ++ PyStr.nl ++ "b")%string.
Proof. split; [vm_compute; reflexivity|vm_compute; discriminate]. Qed.

(** C2, amended: given the organic results [{snippet: a}, {}, {snippet: b}]
    in a successful response, [search] returns [a], two line feeds, [b]:
    a result without a snippet contributes an empty string to the join. *)
Theorem search_joins_every_result (w : world) (self : WebSearcher)
  (entity prompt query : string) (t : trace) (r : response)
  (entries : list (string * pyobj)) :
  substitute w prompt entity = Ok query ->
  http w t search_url (search_request self query) = GetReturns r ->
  is_http_error r = false ->
  body r = Decoded (PyDict entries) ->
  PyObj.lookup "organic_results" entries = Some (PyList a_gap_b) ->
  search w self entity prompt t
  = (Ok ("a" ++ PyStr.nl ++ PyStr.nl ++ "b")%string,
     t ++ [HttpGet search_url (search_request self query)]).
Proof.
  intros Hq Hh Hs Hb Hl. rewrite search_eq, Hq. cbv zeta. rewrite Hh.
  rewrite (snippets_text_results r entries a_gap_b Hs Hb Hl). reflexivity.
Qed.

(** The theorem at work: a world whose every search finds those three
    results. *)
Lemma search_joins_every_result_witness :
  search (Scenario.finding a_gap_b) Scenario.searcher "Acme Corp"
    Scenario.default_prompt []
  = (Ok ("a" ++ PyStr.nl ++ PyStr.nl ++ "b")%string,
     [HttpGet search_url
        (search_request Scenario.searcher
           "What is the main product or service of Acme Corp?")]).
Proof.
  apply (search_joins_every_result (Scenario.finding a_gap_b)
           Scenario.searcher "Acme Corp" Scenario.default_prompt
           "What is the main product or service of Acme Corp?" []
           {| status_code := 200; reason := "OK"; url := search_url;
              body := Decoded (PyDict [("organic_results", PyList a_gap_b)]) |}
           [("organic_results", PyList a_gap_b)]);
    reflexivity.
Defined.

(** ** Failures at the two boundaries *)

(** A failed request is turned into the empty string and a message. *)
Lemma search_failed (w : world) (self : WebSearcher) (entity prompt : string)
  (t : trace) (query : string) :
  substitute w prompt entity = Ok query ->
  request_fails (http w t search_url (search_request self query)) = true ->
  exists msg,
    search w self entity prompt t
    = (Ok "",
       t ++ [HttpGet search_url (search_request self query); SidebarError msg]).
Proof.
  intros Hq Hf. rewrite search_eq, Hq. cbv zeta.
  destruct (http w t _ _) as [sub msg|r].
  - cbn. rewrite <- app_assoc. eexists. reflexivity.
  - destruct (snippets_text_failed r Hf) as [e [-> ->]].
    rewrite <- app_assoc. eexists. reflexivity.
Qed.

(** C3, as stated, fails: a template with an unclosed field makes the
    substitution raise a [ValueError] in [search] (whose handler is for the
    exceptions of the HTTP library only) and in [extract_information] (which
    substitutes before it enters its [try]); the exception leaves
    [process_entities], and no empty string is returned.  Nor is the
    [AttributeError] caught that [search] raises on a result that is not an
    object. *)
Lemma substitution_errors_are_not_caught :
  search Scenario.internet Scenario.searcher "Acme Corp"
    "Main product of {entity" []
  = (Raise (mkExn ValueError "expected '}' before end of string"), [])
  /\ extract_information Scenario.internet Scenario.extractor "Acme Corp"
       "Main product of {entity" "Acme makes widgets." []
     = (Raise (mkExn ValueError "expected '}' before end of string"), [])
  /\ process_entities Scenario.internet Scenario.processor ["Acme Corp"]
       "Main product of {entity" []
     = (Raise (mkExn ValueError "expected '}' before end of string"), [])
  /\ fst (search (Scenario.finding [PyStr "Acme makes widgets."])
            Scenario.searcher "Acme Corp" Scenario.default_prompt [])
     = Raise (mkExn AttributeError "'str' object has no attribute 'get'").
Proof. repeat split; vm_compute; reflexivity. Qed.

(** C3, amended: for every list of entities and every template that
    substitutes without error for each of them, in a world whose responses
    have the documented shape, no exception leaves [process_entities];
    [search] returns for each entity, and returns the empty string when the
    request fails (the library raised, the status is an error, the body is
    not JSON); [extract_information] returns for each entity, and returns
    the empty string when the completion fails. *)
Theorem request_and_completion_failures_are_caught (w : world)
  (self : DataProcessor) (entities : list string) (prompt : string)
  (t : trace) :
  well_shaped w ->
  substitutes w prompt entities = true ->
  (exists records t',
     process_entities w self entities prompt t = (Ok records, t'))
  /\ (forall entity t0,
        In entity entities ->
        exists query text t1,
          substitute w prompt entity = Ok query
          /\ search w (web_searcher self) entity prompt t0 = (Ok text, t1)
          /\ (request_fails
                (http w t0 search_url
                   (search_request (web_searcher self) query)) = true ->
              text = ""))
  /\ (forall entity search_results t0,
        In entity entities ->
        exists query text t1,
          substitute w prompt entity = Ok query
          /\ extract_information w (llm_processor self) entity prompt
               search_results t0 = (Ok text, t1)
          /\ (completion_fails
                (groq_client (llm_processor self) t0
                   (extraction_request query search_results)) = true ->
              text = "")).
Proof.
  intros Hw Hs. split; [|split].
  - destruct (process_entities_returns w self prompt entities Hw Hs t)
      as [records [t' [Hr _]]].
    now exists records, t'.
  - intros entity t0 Hin.
    destruct (substitutes_in w prompt entity entities Hs Hin) as [query Hq].
    destruct (search_returns w (web_searcher self) entity prompt t0 query
                Hw Hq) as [text [t1 Ht]].
    exists query, text, t1. repeat split; try assumption.
    intros Hf.
    destruct (search_failed w (web_searcher self) entity prompt t0 query
                Hq Hf) as [msg Hm].
    congruence.
  - intros entity search_results t0 Hin.
    destruct (substitutes_in w prompt entity entities Hs Hin) as [query Hq].
    destruct (extract_substituted w (llm_processor self) entity prompt
                search_results t0 query Hq) as [text [tail [Ht _]]].
    exists query, text, (t0 ++ ChatCreate (extraction_request query search_results) :: tail).
    repeat split; try assumption.
    intros Hf.
    destruct (extract_failed w (llm_processor self) entity prompt
                search_results t0 query Hq Hf) as [msg Hm].
    congruence.
Qed.

(** The theorem at work: the search service is unreachable and the
    completion service is down. *)
Lemma request_and_completion_failures_are_caught_witness :
  (exists records t',
     process_entities Scenario.offline Scenario.broken_processor
       ["Acme Corp"; "Globex"] Scenario.default_prompt [] = (Ok records, t'))
  /\ (forall entity t0,
        In entity ["Acme Corp"; "Globex"] ->
        exists query text t1,
          substitute Scenario.offline Scenario.default_prompt entity = Ok query
          /\ search Scenario.offline Scenario.searcher entity
               Scenario.default_prompt t0 = (Ok text, t1)
          /\ (request_fails
                (http Scenario.offline t0 search_url
                   (search_request Scenario.searcher query)) = true ->
              text = ""))
  /\ (forall entity search_results t0,
        In entity ["Acme Corp"; "Globex"] ->
        exists query text t1,
          substitute Scenario.offline Scenario.default_prompt entity = Ok query
          /\ extract_information Scenario.offline Scenario.broken_extractor
               entity Scenario.default_prompt search_results t0 = (Ok text, t1)
          /\ (completion_fails
                (groq_client Scenario.broken_extractor t0
                   (extraction_request query search_results)) = true ->
              text = "")).
Proof.
  apply (request_and_completion_failures_are_caught Scenario.offline
           Scenario.broken_processor ["Acme Corp"; "Globex"]
           Scenario.default_prompt []).
  - exact offline_well_shaped.
  - vm_compute. reflexivity.
Defined.

(** ** The record of one entity *)

Section Records.

Variable w : world.

(** The loop over a list in two parts: the second part goes on from the
    results and the trace of the first. *)
Lemma process_loop_app (self : DataProcessor) (prompt : string)
  (before after : list string) :
  forall (results : list ResultRecord) (t : trace),
    process_loop w self prompt (before ++ after) results t =
    match process_loop w self prompt before results t with
    | (Ok records, t1) => process_loop w self prompt after records t1
    | (Raise e, t1) => (Raise e, t1)
    end.
Proof.
  induction before as [|entity rest IH]; intros results t; [reflexivity|].
  cbn [app process_loop]. unfold bind.
  destruct (process_entity w self prompt entity t) as [[record|e] t1];
    [apply IH|reflexivity].
Qed.

(** The record the loop body returns carries the entity it was given. *)
Lemma process_entity_entity (self : DataProcessor) (prompt entity : string)
  (t t1 : trace) (record : ResultRecord) :
  process_entity w self prompt entity t = (Ok record, t1) ->
  Entity record = entity.
Proof.
  rewrite process_entity_eq.
  destruct (search w _ entity prompt t) as [[text|e] t0]; [|discriminate].
  destruct (PyStr.truthy text).
  - destruct (extract_information w _ entity prompt text t0)
      as [[info|e] t2]; [|discriminate].
    now intros [= <- _].
  - now intros [= <- _].
Qed.

(** Whenever [process_entities] returns, its records carry the entities of
    the input, in order. *)
Lemma process_entities_entities (self : DataProcessor) (prompt : string)
  (entities : list string) :
  forall (t t' : trace) (records : list ResultRecord),
    process_entities w self entities prompt t = (Ok records, t') ->
    map Entity records = entities.
Proof.
  induction entities as [|entity rest IH]; intros t t' records.
  - now intros [= <- _].
  - rewrite process_entities_cons.
    destruct (process_entity w self prompt entity t) as [[record|e] t1] eqn:Ee;
      [|discriminate].
    destruct (process_entities w self rest prompt t1) as [[others|e] t2] eqn:Er;
      [|discriminate].
    intros [= <- _]. cbn.
    now rewrite (process_entity_entity _ _ _ _ _ _ Ee), (IH _ _ _ Er).
Qed.

(** The loop from an entity on, once its record is known. *)
Lemma process_entities_step (self : DataProcessor) (prompt entity : string)
  (before after : list string) (t t1 t2 : trace)
  (records : list ResultRecord) (record : ResultRecord) :
  process_entities w self before prompt t = (Ok records, t1) ->
  process_entity w self prompt entity t1 = (Ok record, t2) ->
  process_entities w self (before ++ entity :: after) prompt t
  = process_loop w self prompt after (records ++ [record]) t2.
Proof.
  unfold process_entities. intros Hb He.
  rewrite process_loop_app, Hb. cbn [process_loop]. unfold bind.
  now rewrite He.
Qed.

(** ... and the place of that record in the list returned. *)
Lemma process_loop_keeps (self : DataProcessor) (prompt : string)
  (after : list string) (results final : list ResultRecord)
  (record : ResultRecord) (t t' : trace) :
  process_loop w self prompt after (results ++ [record]) t = (Ok final, t') ->
  nth_error final (length results) = Some record.
Proof.
  rewrite process_loop_acc.
  destruct (process_loop w self prompt after [] t) as [[added|e] t0];
    [|discriminate].
  intros [= <- _]. rewrite <- app_assoc.
  rewrite nth_error_app2 by lia. now rewrite Nat.sub_diag.
Qed.

End Records.

(** C4: if [search] returns the empty string for an entity of the list
    (after the entities [before] it were processed), the record appended
    for it has [Extracted Information] equal to ["No data found"];
    [extract_information] is not called for it: the record and the trace
    are the same whatever the extractor is, and the trace holds no
    completion request for the entity; and the list returned in the end
    holds that record at the entity's position. *)
Theorem empty_search_gives_no_data_found (w : world) (self : DataProcessor)
  (prompt entity : string) (before after : list string) (t t1 t2 : trace)
  (records : list ResultRecord) :
  process_entities w self before prompt t = (Ok records, t1) ->
  search w (web_searcher self) entity prompt t1 = (Ok "", t2) ->
  let record :=
    {| Entity := entity; Extracted_Information := "No data found" |} in
  process_entity w self prompt entity t1 = (Ok record, t2)
  /\ (forall other : LLMProcessor,
        process_entity w
          {| web_searcher := web_searcher self; llm_processor := other |}
          prompt entity t1 = (Ok record, t2))
  /\ (exists events, t2 = t1 ++ events /\ chat_creates events = 0)
  /\ process_entities w self (before ++ entity :: after) prompt t
     = process_loop w self prompt after (records ++ [record]) t2
  /\ (forall final t3,
        process_entities w self (before ++ entity :: after) prompt t
        = (Ok final, t3) ->
        nth_error final (length before) = Some record).
Proof.
  intros Hb Hs record.
  assert (He : process_entity w self prompt entity t1 = (Ok record, t2))
    by (rewrite process_entity_eq, Hs; reflexivity).
  assert (Hstep := process_entities_step w self prompt entity before after
                     t t1 t2 records record Hb He).
  split; [exact He|]. split; [|split; [|split; [exact Hstep|]]].
  - intros other. rewrite process_entity_eq. cbn [web_searcher].
    rewrite Hs. reflexivity.
  - destruct (search_events w (web_searcher self) entity prompt t1)
      as [events [Hev [Hc _]]].
    rewrite Hs in Hev. now exists events.
  - intros final t3. rewrite Hstep. intros Hf.
    rewrite <- (process_entities_entities w self prompt before t t1 records Hb).
    rewrite length_map. eapply process_loop_keeps; eauto.
Qed.

(** The theorem at work: Globex, after Acme Corp. *)
Lemma empty_search_gives_no_data_found_witness :
  let t1 :=
    snd (process_entities Scenario.internet Scenario.processor ["Acme Corp"]
           Scenario.default_prompt []) in
  let t2 :=
    snd (search Scenario.internet Scenario.searcher "Globex"
           Scenario.default_prompt t1) in
  let record :=
    {| Entity := "Globex"; Extracted_Information := "No data found" |} in
  process_entity Scenario.internet Scenario.processor Scenario.default_prompt
    "Globex" t1 = (Ok record, t2)
  /\ (forall other : LLMProcessor,
        process_entity Scenario.internet
          {| web_searcher := web_searcher Scenario.processor;
             llm_processor := other |}
          Scenario.default_prompt "Globex" t1 = (Ok record, t2))
  /\ (exists events, t2 = t1 ++ events /\ chat_creates events = 0)
  /\ process_entities Scenario.internet Scenario.processor
       (["Acme Corp"] ++ "Globex" :: ["Initech"]) Scenario.default_prompt []
     = process_loop Scenario.internet Scenario.processor
         Scenario.default_prompt ["Initech"]
         ([{| Entity := "Acme Corp"; Extracted_Information := "Widgets." |}]
            ++ [record]) t2
  /\ (forall final t3,
        process_entities Scenario.internet Scenario.processor
          (["Acme Corp"] ++ "Globex" :: ["Initech"]) Scenario.default_prompt []
        = (Ok final, t3) ->
        nth_error final (length ["Acme Corp"]) = Some record).
Proof.
  apply (empty_search_gives_no_data_found Scenario.internet Scenario.processor
           Scenario.default_prompt "Globex" ["Acme Corp"] ["Initech"] []);
    vm_compute; reflexivity.
Defined.

(** C5: if [search] returns a non-empty text for an entity and the
    completion requested for that text fails (the call raises, or the
    response has no first choice, or that choice has no text),
    [extract_information] returns the empty string and the record appended
    for the entity has [Extracted Information] equal to the empty string,
    not to ["No data found"].  The request is the one built from the
    substituted template, which exists since [search] returned a text. *)
Theorem failed_extraction_gives_empty_string (w : world)
  (self : DataProcessor) (prompt entity search_results : string)
  (t1 t2 : trace) :
  search w (web_searcher self) entity prompt t1 = (Ok search_results, t2) ->
  search_results <> "" ->
  (forall query,
     substitute w prompt entity = Ok query ->
     completion_fails
       (groq_client (llm_processor self) t2
          (extraction_request query search_results)) = true) ->
  exists query msg,
    let t3 :=
      t2 ++ [ChatCreate (extraction_request query search_results);
             SidebarError msg] in
    let record := {| Entity := entity; Extracted_Information := "" |} in
    substitute w prompt entity = Ok query
    /\ extract_information w (llm_processor self) entity prompt
         search_results t2 = (Ok "", t3)
    /\ process_entity w self prompt entity t1 = (Ok record, t3)
    /\ Extracted_Information record <> "No data found".
Proof.
  intros Hs Hne Hf. apply truthy_not_empty in Hne.
  destruct (search_truthy w _ _ _ _ _ _ Hs Hne) as [query [r [Hq _]]].
  destruct (extract_failed w (llm_processor self) entity prompt search_results
              t2 query Hq (Hf query Hq)) as [msg He].
  exists query, msg. cbv zeta. split; [exact Hq|]. split; [exact He|].
  split; [|discriminate].
  rewrite process_entity_eq, Hs, Hne, He. reflexivity.
Qed.

(** The theorem at work: Acme Corp is found, the completion service is
    down. *)
Lemma failed_extraction_gives_empty_string_witness :
  exists query msg,
    let t2 :=
      [HttpGet search_url
         (search_request Scenario.searcher
            "What is the main product or service of Acme Corp?")] in
    let t3 :=
      t2 ++ [ChatCreate (extraction_request query "Acme makes widgets.");
             SidebarError msg] in
    let record := {| Entity := "Acme Corp"; Extracted_Information := "" |} in
    substitute Scenario.internet Scenario.default_prompt "Acme Corp" = Ok query
    /\ extract_information Scenario.internet Scenario.broken_extractor
         "Acme Corp" Scenario.default_prompt "Acme makes widgets." t2
       = (Ok "", t3)
    /\ process_entity Scenario.internet Scenario.broken_processor
         Scenario.default_prompt "Acme Corp" [] = (Ok record, t3)
    /\ Extracted_Information record <> "No data found".
Proof.
  apply (failed_extraction_gives_empty_string Scenario.internet
           Scenario.broken_processor Scenario.default_prompt "Acme Corp"
           "Acme makes widgets." []).
  - vm_compute. reflexivity.
  - discriminate.
  - intros query Hq. reflexivity.
Defined.

(** ** Templates and requests *)

Lemma sidebar_only (events : list event) :
  forallb is_sidebar_error events = true ->
  http_gets events = 0 /\ chat_creates events = 0.
Proof.
  unfold http_gets, chat_creates.
  induction events as [|e rest IH]; [now split|].
  cbn [forallb]. intros H. apply andb_true_iff in H as [He Hr].
  destruct e; try discriminate. cbn. now apply IH.
Qed.

(** C6, as stated, fails: a template can hold no replacement field and
    still be changed, or refused, by the substitution.  Doubled braces are
    halved, so the query built from [Is {{entity}} a company?] differs from
    the template; a single closing brace raises a [ValueError]. *)
Lemma braces_without_placeholder_are_not_kept :
  has_placeholder "Is {{entity}} a company?" = false
  /\ substitute Scenario.internet "Is {{entity}} a company?" "Acme Corp"
     = Ok "Is {entity} a company?"
  /\ snd (search Scenario.internet Scenario.searcher "Acme Corp"
            "Is {{entity}} a company?" [])
     = [HttpGet search_url
          (search_request Scenario.searcher "Is {entity} a company?")]
  /\ "Is {entity} a company?" <> "Is {{entity}} a company?"
  /\ has_placeholder "Rate it 1-5 } please" = false
  /\ substitute Scenario.internet "Rate it 1-5 } please" "Acme Corp"
     = Raise (mkExn ValueError "Single '}' encountered in format string").
Proof.
  repeat split; try (vm_compute; reflexivity). discriminate.
Qed.

(** C6, amended: for every template that contains neither [{] nor [}], the
    substitution returns the template unchanged for every entity; so the
    query [search] sends and the instruction [extract_information] embeds
    in its request are built from the template text itself. *)
Theorem brace_free_template_is_used_as_is (w : world) (searcher : WebSearcher)
  (extractor : LLMProcessor) (prompt entity search_results : string)
  (t : trace) :
  brace_free prompt = true ->
  substitute w prompt entity = Ok prompt
  /\ (exists tail,
        snd (search w searcher entity prompt t)
        = t ++ HttpGet search_url (search_request searcher prompt) :: tail)
  /\ (exists tail,
        snd (extract_information w extractor entity prompt search_results t)
        = t ++ ChatCreate (extraction_request prompt search_results) :: tail).
Proof.
  intros H. pose proof (substitute_brace_free w prompt entity H) as Hq.
  split; [exact Hq|]. split.
  - destruct (search_substituted w searcher entity prompt t prompt Hq)
      as [tail [Ht _]].
    now exists tail.
  - destruct (extract_substituted w extractor entity prompt search_results t
                prompt Hq) as [text [tail [Ht _]]].
    exists tail. now rewrite Ht.
Qed.

(** The theorem at work: a template that is plain text. *)
Lemma brace_free_template_is_used_as_is_witness :
  substitute Scenario.internet "main product or service" "Acme Corp"
  = Ok "main product or service"
  /\ (exists tail,
        snd (search Scenario.internet Scenario.searcher "Acme Corp"
               "main product or service" [])
        = [] ++ HttpGet search_url
                  (search_request Scenario.searcher "main product or service")
                :: tail)
  /\ (exists tail,
        snd (extract_information Scenario.internet Scenario.extractor
               "Acme Corp" "main product or service" "Acme makes widgets." [])
        = [] ++ ChatCreate
                  (extraction_request "main product or service"
                     "Acme makes widgets.")
                :: tail).
Proof.
  apply (brace_free_template_is_used_as_is Scenario.internet Scenario.searcher
           Scenario.extractor "main product or service" "Acme Corp"
           "Acme makes widgets." []).
  reflexivity.
Defined.

(** C7, as stated, fails: a call whose template does not substitute issues
    no request at all; the exception leaves [search] with the trace as it
    was. *)
Lemma search_without_request :
  search Scenario.internet Scenario.searcher "Acme Corp" "Who founded {}?" []
  = (Raise (mkExn IndexError
              "Replacement index 0 out of range for positional args tuple"),
     [])
  /\ http_gets
       (snd (search Scenario.internet Scenario.searcher "Acme Corp"
               "Who founded {}?" []))
     = 0.
Proof. split; vm_compute; reflexivity. Qed.

(** C7, amended: each call to [search] whose template substitutes issues
    exactly one GET request, to the search URL, with [q] the substituted
    template, the configured key and [num = 5], and otherwise only writes
    to the sidebar; a second identical call, made right after the first,
    issues the same request again. *)
Theorem search_issues_one_request (w : world) (self : WebSearcher)
  (entity prompt query : string) (t : trace) :
  substitute w prompt entity = Ok query ->
  let request :=
    HttpGet "https://serpapi.com/search"
      {| q := query; api_key := serpapi_key self; num := 5 |} in
  exists tail,
    let t1 := t ++ request :: tail in
    snd (search w self entity prompt t) = t1
    /\ forallb is_sidebar_error tail = true
    /\ http_gets (request :: tail) = 1
    /\ exists tail',
         snd (search w self entity prompt t1) = t1 ++ request :: tail'
         /\ forallb is_sidebar_error tail' = true
         /\ http_gets (request :: tail') = 1.
Proof.
  intros Hq request.
  destruct (search_substituted w self entity prompt t query Hq)
    as [tail [Ht Hs]].
  exists tail. cbv zeta. split; [exact Ht|]. split; [exact Hs|].
  destruct (sidebar_only tail Hs) as [Hg _].
  split; [unfold http_gets in *; cbn; now rewrite Hg|].
  destruct (search_substituted w self entity prompt (t ++ request :: tail)
              query Hq) as [tail' [Ht' Hs']].
  exists tail'. split; [exact Ht'|]. split; [exact Hs'|].
  destruct (sidebar_only tail' Hs') as [Hg' _].
  unfold http_gets in *. cbn. now rewrite Hg'.
Qed.

(** The theorem at work: the search for Acme Corp, twice in a row. *)
Lemma search_issues_one_request_witness :
  let request :=
    HttpGet "https://serpapi.com/search"
      {| q := "What is the main product or service of Acme Corp?";
         api_key := Some "secret"; num := 5 |} in
  exists tail,
    let t1 := [] ++ request :: tail in
    snd (search Scenario.internet Scenario.searcher "Acme Corp"
           Scenario.default_prompt []) = t1
    /\ forallb is_sidebar_error tail = true
    /\ http_gets (request :: tail) = 1
    /\ exists tail',
         snd (search Scenario.internet Scenario.searcher "Acme Corp"
                Scenario.default_prompt t1) = t1 ++ request :: tail'
         /\ forallb is_sidebar_error tail' = true
         /\ http_gets (request :: tail') = 1.
Proof.
  apply (search_issues_one_request Scenario.internet Scenario.searcher
           "Acme Corp" Scenario.default_prompt
           "What is the main product or service of Acme Corp?" []).
  reflexivity.
Defined.

(** C8, as stated, fails: a call whose template does not substitute issues
    no completion request; the exception is raised before the [try] block
    and leaves [extract_information]. *)
Lemma extraction_without_request :
  extract_information Scenario.internet Scenario.extractor "Acme Corp"
    "What does {name} sell?" "Acme makes widgets." []
  = (Raise (mkExn KeyError "'name'"), [])
  /\ chat_creates
       (snd (extract_information Scenario.internet Scenario.extractor
               "Acme Corp" "What does {name} sell?" "Acme makes widgets." []))
     = 0.
Proof. split; vm_compute; reflexivity. Qed.

(** C8, amended: each call to [extract_information] whose template
    substitutes issues exactly one completion request and otherwise only
    writes to the sidebar.  The request holds two messages, the fixed system
    instruction and a user message that embeds the substituted template and
    the search text as given, with [max_tokens = 150], [temperature = 0.5]
    and the model [mixtral-8x7b-32768].  When the call returns a completion
    whose first choice has a text, the result is that text with the
    whitespace at both ends removed, and nothing else. *)
Theorem extraction_issues_one_request (w : world) (self : LLMProcessor)
  (entity prompt substituted search_results : string) (t : trace) :
  substitute w prompt entity = Ok substituted ->
  let req := extraction_request substituted search_results in
  (exists text tail,
     extract_information w self entity prompt search_results t
     = (Ok text, t ++ ChatCreate req :: tail)
     /\ forallb is_sidebar_error tail = true
     /\ chat_creates (ChatCreate req :: tail) = 1)
  /\ model req = "mixtral-8x7b-32768"
  /\ max_tokens req = 150%Z
  /\ temperature req = 0.5%Q
  /\ (exists user,
        messages req
        = [{| role := "system";
              content := "You are a helpful assistant that extracts specific information from web search results." |};
           {| role := "user"; content := user |}]
        /\ exists before between after,
             user = (before ++ substituted ++ between ++ search_results
                       ++ after)%string)
  /\ (forall c text others,
        groq_client self t req = CreateReturns c ->
        choices c = Some text :: others ->
        extract_information w self entity prompt search_results t
        = (Ok (PyStr.strip text), t ++ [ChatCreate req])
        /\ exists l r,
             text = (l ++ PyStr.strip text ++ r)%string
             /\ all_space l = true /\ all_space r = true
             /\ starts_with_space (PyStr.strip text) = false
             /\ ends_with_space (PyStr.strip text) = false).
Proof.
  intros Hq req. split; [|split; [|split; [|split; [|split]]]];
    try reflexivity.
  - destruct (extract_substituted w self entity prompt search_results t
                substituted Hq) as [text [tail [Ht Hs]]].
    exists text, tail. split; [exact Ht|]. split; [exact Hs|].
    destruct (sidebar_only tail Hs) as [_ Hc].
    unfold chat_creates in *. cbn. now rewrite Hc.
  - eexists. split; [reflexivity|].
    exists "Extract information from the following search results based on the prompt: '"%string.
    exists ("'" ++ PyStr.nl ++ PyStr.nl ++ "Search Results:" ++ PyStr.nl)%string.
    exists (PyStr.nl ++ PyStr.nl ++ "Extracted Information:")%string.
    cbn [append]. rewrite !append_assoc. reflexivity.
  - intros c text others Hc Ht. split.
    + exact (extract_succeeded w self entity prompt search_results t
               substituted c text others Hq Hc Ht).
    + apply strip_spec.
Qed.

(** The theorem at work: the extraction for Acme Corp. *)
Lemma extraction_issues_one_request_witness :
  exists text tail,
    extract_information Scenario.internet Scenario.extractor "Acme Corp"
      Scenario.default_prompt "Acme makes widgets." []
    = (Ok text,
       [] ++ ChatCreate
               (extraction_request
                  "What is the main product or service of Acme Corp?"
                  "Acme makes widgets.") :: tail)
    /\ forallb is_sidebar_error tail = true
    /\ chat_creates
         (ChatCreate
            (extraction_request
               "What is the main product or service of Acme Corp?"
               "Acme makes widgets.") :: tail) = 1.
Proof.
  assert (Hq : substitute Scenario.internet Scenario.default_prompt "Acme Corp"
               = Ok "What is the main product or service of Acme Corp?")
    by reflexivity.
  destruct (extraction_issues_one_request Scenario.internet Scenario.extractor
              "Acme Corp" Scenario.default_prompt
              "What is the main product or service of Acme Corp?"
              "Acme makes widgets." [] Hq) as [H _].
  exact H.
Defined.

(** ** Results without snippets *)

(** C9: when a successful response lists [n >= 2] results none of which
    has a snippet, [search] returns [n - 1] line feeds, which is not the
    empty string; so [process_entities] does not record ["No data found"]
    but sends that text to the completion service and records what
    [extract_information] returns for it. *)
Theorem snippetless_results_count_as_data (w : world) (self : DataProcessor)
  (prompt entity query : string) (t : trace) (r : response)
  (entries : list (string * pyobj)) (items : list pyobj) :
  substitute w prompt entity = Ok query ->
  http w t search_url (search_request (web_searcher self) query)
  = GetReturns r ->
  is_http_error r = false ->
  body r = Decoded (PyDict entries) ->
  PyObj.lookup "organic_results" entries = Some (PyList items) ->
  forallb snippetless items = true ->
  2 <= length items ->
  let text := newlines (length items - 1) in
  let t1 :=
    t ++ [HttpGet search_url (search_request (web_searcher self) query)] in
  search w (web_searcher self) entity prompt t = (Ok text, t1)
  /\ text <> ""
  /\ exists info tail,
       let t2 := t1 ++ ChatCreate (extraction_request query text) :: tail in
       extract_information w (llm_processor self) entity prompt text t1
       = (Ok info, t2)
       /\ process_entity w self prompt entity t
          = (Ok {| Entity := entity; Extracted_Information := info |}, t2).
Proof.
  intros Hq Hh Hs Hb Hl Hi Hn text t1.
  assert (Hsearch : search w (web_searcher self) entity prompt t
                    = (Ok text, t1)).
  { rewrite search_eq, Hq. cbv zeta. rewrite Hh.
    rewrite (snippets_text_results r entries items Hs Hb Hl).
    rewrite (comprehension_snippetless items Hi). cbn [bind_result].
    rewrite join_strs. subst text.
    destruct (length items) as [|n]; [lia|].
    rewrite concat_empty_strings. cbn [Nat.sub]. now rewrite Nat.sub_0_r. }
  assert (Htruthy : PyStr.truthy text = true).
  { subst text. destruct (length items) as [|[|n]]; [lia|lia|reflexivity]. }
  split; [exact Hsearch|]. split; [now apply truthy_not_empty|].
  destruct (extract_substituted w (llm_processor self) entity prompt text t1
              query Hq) as [info [tail [He _]]].
  exists info, tail. cbv zeta. split; [exact He|].
  rewrite process_entity_eq, Hsearch, Htruthy, He. reflexivity.
Qed.

(** The theorem at work: two results, no snippet, one line feed sent to the
    completion service. *)
Lemma snippetless_results_count_as_data_witness :
  let w := Scenario.finding [PyDict []; PyDict [("title", PyStr "Globex")]] in
  let text := newlines (2 - 1) in
  let t1 :=
    [] ++ [HttpGet search_url
             (search_request (web_searcher Scenario.processor)
                "What is the main product or service of Globex?")] in
  search w (web_searcher Scenario.processor) "Globex" Scenario.default_prompt []
  = (Ok text, t1)
  /\ text <> ""
  /\ exists info tail,
       let t2 :=
         t1 ++ ChatCreate
                 (extraction_request
                    "What is the main product or service of Globex?" text)
               :: tail in
       extract_information w (llm_processor Scenario.processor) "Globex"
         Scenario.default_prompt text t1 = (Ok info, t2)
       /\ process_entity w Scenario.processor Scenario.default_prompt
            "Globex" []
          = (Ok {| Entity := "Globex"; Extracted_Information := info |}, t2).
Proof.
  apply (snippetless_results_count_as_data
           (Scenario.finding [PyDict []; PyDict [("title", PyStr "Globex")]])
           Scenario.processor Scenario.default_prompt "Globex"
           "What is the main product or service of Globex?" []
           {| status_code := 200; reason := "OK"; url := search_url;
              body :=
                Decoded
                  (PyDict
                     [("organic_results",
                       PyList [PyDict []; PyDict [("title", PyStr "Globex")]])]) |}
           [("organic_results",
             PyList [PyDict []; PyDict [("title", PyStr "Globex")]])]
           [PyDict []; PyDict [("title", PyStr "Globex")]]);
    first [reflexivity | cbn; lia].
Defined.

(** ** The calls of a whole run *)

Lemma http_gets_app (l l' : list event) :
  http_gets (l ++ l') = http_gets l + http_gets l'.
Proof. unfold http_gets. now rewrite filter_app, length_app. Qed.

Lemma chat_creates_app (l l' : list event) :
  chat_creates (l ++ l') = chat_creates l + chat_creates l'.
Proof. unfold chat_creates. now rewrite filter_app, length_app. Qed.

Lemma chat_creates_middle (pre post : list event) (req : chat_request) :
  chat_creates (pre ++ ChatCreate req :: post) <> 0.
Proof.
  rewrite chat_creates_app. unfold chat_creates at 2. cbn. lia.
Qed.

(** A trace with one completion request splits around it in one way. *)
Lemma one_chat_create (l1 : list event) :
  forall (l2 pre post : list event) (x y : chat_request),
    chat_creates l1 = 0 -> chat_creates l2 = 0 ->
    l1 ++ ChatCreate x :: l2 = pre ++ ChatCreate y :: post ->
    pre = l1 /\ y = x /\ post = l2.
Proof.
  induction l1 as [|a l1 IH]; intros l2 pre post x y H1 H2 H.
  - destruct pre as [|e pre]; cbn in H.
    + now injection H as <- <-.
    + injection H as <- ->. exfalso. exact (chat_creates_middle _ _ _ H2).
  - destruct pre as [|e pre]; cbn in H.
    + injection H as -> _. discriminate.
    + injection H as <- H.
      assert (Ha : chat_creates l1 = 0).
      { change (a :: l1) with ([a] ++ l1) in H1.
        rewrite chat_creates_app in H1. lia. }
      destruct (IH l2 pre post x y Ha H2 H) as [-> [-> ->]]. now repeat split.
Qed.

Section Runs.

Variable w : world.

(** The calls of the loop body for one entity. *)
Lemma process_entity_calls (self : DataProcessor) (prompt entity : string)
  (t : trace) :
  exists events,
    snd (process_entity w self prompt entity t) = t ++ events
    /\ http_gets events <= 1
    /\ chat_creates events <= 1
    /\ forall pre req post,
         events = pre ++ ChatCreate req :: post ->
         exists text query,
           search w (web_searcher self) entity prompt t = (Ok text, t ++ pre)
           /\ text <> ""
           /\ substitute w prompt entity = Ok query
           /\ req = extraction_request query text.
Proof.
  rewrite process_entity_eq.
  destruct (search_events w (web_searcher self) entity prompt t)
    as [found [Hev [Hc Hg]]].
  destruct (search w (web_searcher self) entity prompt t)
    as [[text|e] t1] eqn:Es; cbn [snd] in Hev; subst t1.
  - destruct (PyStr.truthy text) eqn:Ht.
    + destruct (search_truthy w _ _ _ _ _ _ Es Ht) as [query [r [Hq _]]].
      destruct (extract_substituted w (llm_processor self) entity prompt text
                  (t ++ found) query Hq) as [info [tail [-> Hs]]].
      destruct (sidebar_only tail Hs) as [Hg' Hc'].
      exists (found ++ ChatCreate (extraction_request query text) :: tail).
      cbn [snd]. rewrite <- app_assoc. split; [reflexivity|].
      rewrite http_gets_app, chat_creates_app.
      change (ChatCreate (extraction_request query text) :: tail)
        with ([ChatCreate (extraction_request query text)] ++ tail).
      rewrite http_gets_app, chat_creates_app, Hg', Hc', Hc.
      split; [cbn; lia|]. split; [cbn; lia|].
      intros pre req post Hsplit. cbn [app] in Hsplit.
      destruct (one_chat_create _ _ _ _ _ _ Hc Hc' Hsplit) as [-> [-> _]].
      exists text, query. repeat split; try assumption.
      now apply truthy_not_empty.
    + exists found. cbn [snd]. repeat split; try lia; try reflexivity.
      intros pre req post ->. exfalso. exact (chat_creates_middle _ _ _ Hc).
  - exists found. cbn [snd]. repeat split; try lia; try reflexivity.
    intros pre req post ->. exfalso. exact (chat_creates_middle _ _ _ Hc).
Qed.

(** The calls of the loop over a list of entities. *)
Lemma process_entities_calls (self : DataProcessor) (prompt : string)
  (entities : list string) :
  forall t, exists events,
    snd (process_entities w self entities prompt t) = t ++ events
    /\ http_gets events <= length entities
    /\ chat_creates events <= length entities
    /\ forall pre req post,
         events = pre ++ ChatCreate req :: post ->
         exists entity t0 text query,
           In entity entities
           /\ search w (web_searcher self) entity prompt t0
              = (Ok text, t ++ pre)
           /\ text <> ""
           /\ substitute w prompt entity = Ok query
           /\ req = extraction_request query text.
Proof.
  induction entities as [|entity rest IH]; intros t.
  - exists []. cbn. rewrite app_nil_r. repeat split; try lia.
    intros [|e pre] req post H; discriminate.
  - rewrite process_entities_cons.
    destruct (process_entity_calls self prompt entity t)
      as [first [Hev [Hg [Hc Hsplit]]]].
    destruct (process_entity w self prompt entity t) as [[record|e] t1];
      cbn [snd] in Hev; subst t1.
    + destruct (IH (t ++ first)) as [others [Hev' [Hg' [Hc' Hsplit']]]].
      exists (first ++ others).
      split.
      { destruct (process_entities w self rest prompt (t ++ first))
          as [[records|e] t2]; cbn [snd] in Hev' |- *; subst t2;
          now rewrite app_assoc. }
      rewrite http_gets_app, chat_creates_app. cbn [length].
      split; [lia|]. split; [lia|].
      intros pre req post H.
      destruct (app_eq_app _ _ _ _ H) as [l [[H1 H2]|[H1 H2]]].
      * destruct l as [|a l].
        -- rewrite app_nil_r in H1. subst first. cbn [app] in H2.
           destruct (Hsplit' [] req post (eq_sym H2))
             as [e' [t0 [text [query [Hin [Hs Hrest]]]]]].
           rewrite app_nil_r in Hs.
           exists e', t0, text, query. split; [now right|]. now split.
        -- injection H2 as <- Hp.
           destruct (Hsplit pre req l H1) as [text [query Hrest]].
           exists entity, t, text, query. split; [now left|exact Hrest].
      * destruct (Hsplit' l req post H2)
          as [e' [t0 [text [query [Hin [Hs Hrest]]]]]].
        exists e', t0, text, query. split; [now right|].
        split; [|exact Hrest]. rewrite Hs, H1. now rewrite app_assoc.
    + exists first. cbn [snd length]. split; [reflexivity|].
      split; [lia|]. split; [lia|].
      intros pre req post H.
      destruct (Hsplit pre req post H) as [text [query Hrest]].
      exists entity, t, text, query. split; [now left|exact Hrest].
Qed.

End Runs.

(** C10: in every execution of [process_entities], the loop body calls
    [extract_information] only with a non-empty text that [search] returned
    for the same entity and template; every completion request in the
    trace is the one built for such a text, right after the search that
    returned it; and each entity causes at most one request to the search
    service and at most one to the completion service, so at most two
    external calls. *)
Theorem extraction_follows_non_empty_search (w : world) (self : DataProcessor)
  (entities : list string) (prompt : string) (t : trace) :
  (forall entity t0,
     process_entity w self prompt entity t0
     = match search w (web_searcher self) entity prompt t0 with
       | (Raise e, t1) => (Raise e, t1)
       | (Ok search_results, t1) =>
           if PyStr.truthy search_results then
             match extract_information w (llm_processor self) entity prompt
                     search_results t1 with
             | (Ok extracted_info, t2) =>
                 (Ok {| Entity := entity;
                        Extracted_Information := extracted_info |}, t2)
             | (Raise e, t2) => (Raise e, t2)
             end
           else
             (Ok {| Entity := entity;
                    Extracted_Information := "No data found" |}, t1)
       end)
  /\ (forall entity t0,
        exists events,
          snd (process_entity w self prompt entity t0) = t0 ++ events
          /\ http_gets events <= 1
          /\ chat_creates events <= 1
          /\ external_calls events <= 2)
  /\ exists events,
       snd (process_entities w self entities prompt t) = t ++ events
       /\ external_calls events <= 2 * length entities
       /\ forall pre req post,
            events = pre ++ ChatCreate req :: post ->
            exists entity t0 search_results query,
              In entity entities
              /\ search w (web_searcher self) entity prompt t0
                 = (Ok search_results, t ++ pre)
              /\ search_results <> ""
              /\ substitute w prompt entity = Ok query
              /\ req = extraction_request query search_results.
Proof.
  split; [|split].
  - intros entity t0. apply process_entity_eq.
  - intros entity t0.
    destruct (process_entity_calls w self prompt entity t0)
      as [events [Hev [Hg [Hc _]]]].
    exists events. unfold external_calls. repeat split; try assumption. lia.
  - destruct (process_entities_calls w self prompt entities t)
      as [events [Hev [Hg [Hc Hsplit]]]].
    exists events. unfold external_calls. split; [exact Hev|].
    split; [lia|exact Hsplit].
Qed.

(** ** The pipeline, by example *)

(** The end-to-end scenario of the specification. *)
Example end_to_end :
  fst (process_entities Scenario.internet Scenario.processor
         ["Acme Corp"; "Globex"] Scenario.default_prompt [])
  = Ok [{| Entity := "Acme Corp"; Extracted_Information := "Widgets." |};
        {| Entity := "Globex"; Extracted_Information := "No data found" |}].
Proof. vm_compute. reflexivity. Qed.

(** Three external calls for two entities: a search and a completion for
    Acme Corp, a search for Globex. *)
Example end_to_end_calls :
  external_calls
    (snd (process_entities Scenario.internet Scenario.processor
            ["Acme Corp"; "Globex"] Scenario.default_prompt []))
  = 3.
Proof. vm_compute. reflexivity. Qed.

(** An unreachable search service: every record says so, and the sidebar
    shows one message per entity. *)
Example offline_run :
  process_entities Scenario.offline Scenario.processor ["Acme Corp"]
    Scenario.default_prompt []
  = (Ok [{| Entity := "Acme Corp"; Extracted_Information := "No data found" |}],
     [HttpGet search_url
        (search_request Scenario.searcher
           "What is the main product or service of Acme Corp?");
      SidebarError "Error during web search: Connection refused"]).
Proof. vm_compute. reflexivity. Qed.

(** Substitution on a few templates. *)
Example substitute_twice :
  substitute Scenario.internet "{entity} vs. {entity}" "Acme"
  = Ok "Acme vs. Acme".
Proof. reflexivity. Qed.

Example substitute_escaped :
  substitute Scenario.internet "{{{entity}}}" "Acme" = Ok "{Acme}".
Proof. reflexivity. Qed.

Example substitute_positional :
  substitute Scenario.internet "{0}" "Acme"
  = Raise (mkExn IndexError
             "Replacement index 0 out of range for positional args tuple").
Proof. reflexivity. Qed.

Example substitute_unclosed_spec :
  substitute Scenario.internet "{entity:" "Acme"
  = Raise (mkExn ValueError "unmatched '{' in format spec").
Proof. reflexivity. Qed.

Example substitute_lone_open :
  substitute Scenario.internet "100% {" "Acme"
  = Raise (mkExn ValueError "Single '{' encountered in format string").
Proof. reflexivity. Qed.

Example substitute_nested_open :
  substitute Scenario.internet "{entity{}" "Acme"
  = Raise (mkExn ValueError "unexpected '{' in field name").
Proof. reflexivity. Qed.

Example substitute_no_conversion :
  substitute Scenario.internet "{entity!" "Acme"
  = Raise (mkExn ValueError
             "end of string while looking for conversion specifier").
Proof. reflexivity. Qed.

Example substitute_long_conversion :
  substitute Scenario.internet "{name!rs}" "Acme"
  = Raise (mkExn ValueError "expected ':' after conversion specifier").
Proof. reflexivity. Qed.

Example substitute_huge_index :
  substitute Scenario.internet "{9223372036854775808}" "Acme"
  = Raise (mkExn ValueError "Too many decimal digits in format string").
Proof. reflexivity. Qed.

Example substitute_bracket_hides_brace :
  substitute Scenario.internet "{a[}]}" "Acme"
  = Raise (mkExn KeyError "'a'").
Proof. reflexivity. Qed.

(** The first error from the left is the one raised. *)
Example substitute_first_error :
  substitute Scenario.internet "{name}{" "Acme"
  = Raise (mkExn KeyError "'name'").
Proof. reflexivity. Qed.

(** What [search] makes of bodies of other shapes. *)
Example body_is_a_list :
  snippets_text
    {| status_code := 200; reason := "OK"; url := search_url;
       body := Decoded (PyList []) |}
  = Raise (mkExn AttributeError "'list' object has no attribute 'get'").
Proof. reflexivity. Qed.

Example results_are_null :
  snippets_text
    {| status_code := 200; reason := "OK"; url := search_url;
       body := Decoded (PyDict [("organic_results", PyNone)]) |}
  = Raise (mkExn TypeError "'NoneType' object is not iterable").
Proof. reflexivity. Qed.

Example no_results_key :
  snippets_text
    {| status_code := 200; reason := "OK"; url := search_url;
       body := Decoded (PyDict [("error", PyStr "no results")]) |}
  = Ok "".
Proof. reflexivity. Qed.

Example not_found :
  snippets_text
    {| status_code := 404; reason := "Not Found"; url := search_url;
       body := NotJson "Expecting value: line 1 column 1 (char 0)" |}
  = Raise (mkExn (RequestException "HTTPError")
             "404 Client Error: Not Found for url: https://serpapi.com/search").
Proof. reflexivity. Qed.

Example strip_both_ends :
  PyStr.strip (PyStr.nl ++ "  Widgets and more. " ++ PyStr.nl)
  = "Widgets and more.".
Proof. reflexivity. Qed.

(** * Further properties of the pipeline *)

(** ** Shape of the result *)

(** X1. Whenever [process_entities] returns, in any world and for any template,
    its records carry the entities of the input, one each, in order. *)
Theorem returned_records_follow_the_entities (w : world)
  (self : DataProcessor) (entities : list string) (prompt : string)
  (t t' : trace) (records : list ResultRecord) :
  process_entities w self entities prompt t = (Ok records, t') ->
  map Entity records = entities /\ length records = length entities.
Proof.
  intros H.
  pose proof (process_entities_entities w self prompt entities t t' records H)
    as Hm.
  split; [exact Hm|]. rewrite <- Hm. symmetry. apply length_map.
Qed.

Lemma returned_records_follow_the_entities_witness :
  map Entity
    [{| Entity := "Acme Corp"; Extracted_Information := "Widgets." |};
     {| Entity := "Globex"; Extracted_Information := "No data found" |}]
  = ["Acme Corp"; "Globex"]
  /\ length
       [{| Entity := "Acme Corp"; Extracted_Information := "Widgets." |};
        {| Entity := "Globex"; Extracted_Information := "No data found" |}]
     = length ["Acme Corp"; "Globex"].
Proof.
  apply (returned_records_follow_the_entities Scenario.internet
           Scenario.processor ["Acme Corp"; "Globex"] Scenario.default_prompt
           []
           (snd (process_entities Scenario.internet Scenario.processor
                   ["Acme Corp"; "Globex"] Scenario.default_prompt []))).
  vm_compute. reflexivity.
Defined.

(** X2. Processing a list in two parts, the second from the trace the first
    left, gives the same records and the same trace as processing it at
    once; an exception in the first part ends the run there. *)
Theorem process_entities_app (w : world) (self : DataProcessor)
  (before after : list string) (prompt : string) (t : trace) :
  process_entities w self (before ++ after) prompt t =
  match process_entities w self before prompt t with
  | (Raise e, t1) => (Raise e, t1)
  | (Ok records, t1) =>
      match process_entities w self after prompt t1 with
      | (Raise e, t2) => (Raise e, t2)
      | (Ok more, t2) => (Ok (records ++ more), t2)
      end
  end.
Proof.
  unfold process_entities. rewrite process_loop_app.
  destruct (process_loop w self prompt before [] t) as [[records|e] t1];
    [|reflexivity].
  apply process_loop_acc.
Qed.

(** X3. An exception on one entity ends the run: the exception leaves
    [process_entities] with the trace as that entity left it, so nothing is
    requested for the entities after it, and the records of the entities
    before it are not returned. *)
Theorem exception_ends_the_run (w : world) (self : DataProcessor)
  (prompt entity : string) (before after : list string) (t t1 t2 : trace)
  (records : list ResultRecord) (e : exn) :
  process_entities w self before prompt t = (Ok records, t1) ->
  process_entity w self prompt entity t1 = (Raise e, t2) ->
  process_entities w self (before ++ entity :: after) prompt t = (Raise e, t2)
  /\ exists events,
       t2 = t1 ++ events
       /\ http_gets events <= 1 /\ chat_creates events <= 1.
Proof.
  intros Hb He. split.
  - unfold process_entities in *. rewrite process_loop_app, Hb.
    cbn [process_loop]. unfold bind. now rewrite He.
  - destruct (process_entity_calls w self prompt entity t1)
      as [events [Hev [Hg [Hc _]]]].
    rewrite He in Hev. now exists events.
Qed.

(** The theorem at work: Acme Corp is processed, Globex has a null
    snippet, Initech is never searched. *)
Lemma exception_ends_the_run_witness :
  let t1 :=
    snd (process_entities Scenario2.null_after_acme Scenario.processor
           ["Acme Corp"] Scenario.default_prompt []) in
  let t2 :=
    t1 ++ [HttpGet search_url
             (search_request Scenario.searcher
                "What is the main product or service of Globex?")] in
  process_entities Scenario2.null_after_acme Scenario.processor
    (["Acme Corp"] ++ "Globex" :: ["Initech"]) Scenario.default_prompt []
  = (Raise (mkExn TypeError
              "sequence item 0: expected str instance, NoneType found"), t2)
  /\ exists events,
       t2 = t1 ++ events
       /\ http_gets events <= 1 /\ chat_creates events <= 1.
Proof.
  apply (exception_ends_the_run Scenario2.null_after_acme Scenario.processor
           Scenario.default_prompt "Globex" ["Acme Corp"] ["Initech"] []
           (snd (process_entities Scenario2.null_after_acme Scenario.processor
                   ["Acme Corp"] Scenario.default_prompt []))
           _
           [{| Entity := "Acme Corp"; Extracted_Information := "Widgets." |}]);
    vm_compute; reflexivity.
Defined.

(** ** What can leave the two calls *)

(** X4. [search] never lets an exception of the HTTP library out, and writes
    nothing to the sidebar when it raises: what it raises was raised either
    by the substitution, before any request, or by the reading of a response
    it received. *)
Theorem search_raises_no_request_exception (w : world) (self : WebSearcher)
  (entity prompt : string) (t : trace) (e : exn) :
  fst (search w self entity prompt t) = Raise e ->
  is_request_exception e = false
  /\ ((substitute w prompt entity = Raise e
       /\ snd (search w self entity prompt t) = t)
      \/ (exists query r,
            substitute w prompt entity = Ok query
            /\ http w t search_url (search_request self query) = GetReturns r
            /\ snippets_text r = Raise e
            /\ snd (search w self entity prompt t)
               = t ++ [HttpGet search_url (search_request self query)])).
Proof.
  rewrite search_eq. cbv zeta.
  destruct (substitute w prompt entity) as [query|x].
  - destruct (http w t _ _) as [sub msg|r] eqn:Eh; [discriminate|].
    destruct (snippets_text r) as [text|x] eqn:Es; [discriminate|].
    destruct (is_request_exception x) eqn:Ex; [discriminate|].
    cbn. intros [= <-]. split; [exact Ex|]. right. now exists query, r.
  - destruct (is_request_exception x) eqn:Ex; [discriminate|].
    cbn. intros [= <-]. split; [exact Ex|]. now left.
Qed.

Lemma search_raises_no_request_exception_witness :
  is_request_exception (mkExn KeyError "'company'") = false
  /\ ((substitute Scenario.internet "What does {company} sell?" "Acme Corp"
       = Raise (mkExn KeyError "'company'")
       /\ snd (search Scenario.internet Scenario.searcher "Acme Corp"
                 "What does {company} sell?" []) = [])
      \/ (exists query r,
            substitute Scenario.internet "What does {company} sell?"
              "Acme Corp" = Ok query
            /\ http Scenario.internet [] search_url
                 (search_request Scenario.searcher query) = GetReturns r
            /\ snippets_text r = Raise (mkExn KeyError "'company'")
            /\ snd (search Scenario.internet Scenario.searcher "Acme Corp"
                      "What does {company} sell?" [])
               = [] ++ [HttpGet search_url
                          (search_request Scenario.searcher query)])).
Proof.
  apply (search_raises_no_request_exception Scenario.internet
           Scenario.searcher "Acme Corp" "What does {company} sell?" []).
  reflexivity.
Defined.

(** X5. [extract_information] raises exactly when the substitution does, with
    the same exception, and then it has requested nothing and written
    nothing: whatever happens to the completion never leaves the call. *)
Theorem extract_information_raises_with_substitution (w : world)
  (self : LLMProcessor) (entity prompt search_results : string) (t : trace)
  (e : exn) :
  (fst (extract_information w self entity prompt search_results t) = Raise e
   <-> substitute w prompt entity = Raise e)
  /\ (substitute w prompt entity = Raise e ->
      extract_information w self entity prompt search_results t
      = (Raise e, t)).
Proof.
  rewrite extract_information_eq.
  destruct (substitute w prompt entity) as [query|x]; cbv zeta.
  - destruct (groq_client self t _) as [x|c];
      [|destruct (first_choice_text c)]; cbn; repeat split; discriminate.
  - cbn. repeat split; congruence.
Qed.

(** ** The text of a search *)

Lemma comprehension_snippets (items : list pyobj) :
  forallb result_shape items = true ->
  PyObj.comprehension (fun result => PyObj.get result "snippet" (PyStr ""))
    items = Ok (map PyStr (map snippet_of items)).
Proof.
  induction items as [|item rest IH]; intros H; [reflexivity|].
  cbn [forallb] in H. apply andb_true_iff in H as [Hi Hr].
  destruct item as [| | | | | |entries]; try discriminate.
  cbn [PyObj.comprehension PyObj.get map snippet_of]. cbn [result_shape] in Hi.
  rewrite (IH Hr).
  destruct (PyObj.lookup "snippet" entries) as [[| | | |s| |]|];
    try discriminate; reflexivity.
Qed.

(** What [search] reads from a successful response of the documented
    shape. *)
Lemma snippets_text_joined (r : response) (entries : list (string * pyobj))
  (items : list pyobj) :
  is_http_error r = false ->
  body r = Decoded (PyDict entries) ->
  organic_results_of entries = Some items ->
  forallb result_shape items = true ->
  snippets_text r = Ok (String.concat PyStr.nl (map snippet_of items)).
Proof.
  intros Hs Hb Ho Hi. unfold snippets_text, Requests.json.
  rewrite (raise_for_status_ok r Hs), Hb. cbn [bind_result PyObj.get].
  unfold organic_results_of in Ho.
  destruct (PyObj.lookup "organic_results" entries) as [results|].
  - destruct results as [| | | | |items'|]; try discriminate.
    injection Ho as ->. cbn [PyObj.iter bind_result].
    rewrite (comprehension_snippets items Hi). cbn [bind_result].
    apply join_strs.
  - injection Ho as <-. reflexivity.
Qed.

Lemma append_empty (a b : string) :
  (a ++ b)%string = EmptyString -> a = EmptyString /\ b = EmptyString.
Proof. destruct a; cbn; [now split|discriminate]. Qed.

(** A join with line feeds is empty only for no string at all or for one
    empty string. *)
Lemma concat_nl_empty (snippets : list string) :
  String.concat PyStr.nl snippets = EmptyString
  <-> snippets = [] \/ snippets = [EmptyString].
Proof.
  split.
  - destruct snippets as [|x [|y rest]]; cbn [String.concat].
    + now left.
    + intros ->. now right.
    + intros H. apply append_empty in H as [_ H]. discriminate.
  - intros [->| ->]; reflexivity.
Qed.

Lemma search_returns_joined_snippets_aux (w : world) (self : WebSearcher)
  (entity prompt query : string) (t : trace) (r : response)
  (entries : list (string * pyobj)) (items : list pyobj) :
  substitute w prompt entity = Ok query ->
  http w t search_url (search_request self query) = GetReturns r ->
  is_http_error r = false ->
  body r = Decoded (PyDict entries) ->
  organic_results_of entries = Some items ->
  forallb result_shape items = true ->
  search w self entity prompt t
  = (Ok (String.concat PyStr.nl (map snippet_of items)),
     t ++ [HttpGet search_url (search_request self query)]).
Proof.
  intros Hq Hh Hs Hb Ho Hi. rewrite search_eq, Hq. cbv zeta. rewrite Hh.
  now rewrite (snippets_text_joined r entries items Hs Hb Ho Hi).
Qed.

(** X6. For every successful response of the documented shape, [search] issues
    its request, writes nothing to the sidebar, and returns the snippets of
    the results in order, joined by line feeds, with an empty string for each
    result without a snippet and for none at all when the response lists no
    results or has no [organic_results]. *)
Theorem search_returns_joined_snippets (w : world) (self : WebSearcher)
  (entity prompt query : string) (t : trace) (r : response)
  (entries : list (string * pyobj)) (items : list pyobj) :
  substitute w prompt entity = Ok query ->
  http w t search_url (search_request self query) = GetReturns r ->
  is_http_error r = false ->
  body r = Decoded (PyDict entries) ->
  organic_results_of entries = Some items ->
  forallb result_shape items = true ->
  search w self entity prompt t
  = (Ok (String.concat PyStr.nl (map snippet_of items)),
     t ++ [HttpGet search_url (search_request self query)]).
Proof.
  apply search_returns_joined_snippets_aux.
Qed.

(** The theorem at work: three results, the second without a snippet. *)
Lemma search_returns_joined_snippets_witness :
  search
    (Scenario.finding
       [PyDict [("snippet", PyStr "Acme makes widgets.")];
        PyDict [("title", PyStr "Acme")];
        PyDict [("snippet", PyStr "Since 1949.")]])
    Scenario.searcher "Acme Corp" Scenario.default_prompt []
  = (Ok (String.concat PyStr.nl
           (map snippet_of
              [PyDict [("snippet", PyStr "Acme makes widgets.")];
               PyDict [("title", PyStr "Acme")];
               PyDict [("snippet", PyStr "Since 1949.")]])),
     [] ++ [HttpGet search_url
              (search_request Scenario.searcher
                 "What is the main product or service of Acme Corp?")]).
Proof.
  apply (search_returns_joined_snippets _ Scenario.searcher "Acme Corp"
           Scenario.default_prompt
           "What is the main product or service of Acme Corp?" []
           {| status_code := 200; reason := "OK"; url := search_url;
              body :=
                Decoded
                  (PyDict
                     [("organic_results",
                       PyList
                         [PyDict [("snippet", PyStr "Acme makes widgets.")];
                          PyDict [("title", PyStr "Acme")];
                          PyDict [("snippet", PyStr "Since 1949.")]])]) |}
           [("organic_results",
             PyList
               [PyDict [("snippet", PyStr "Acme makes widgets.")];
                PyDict [("title", PyStr "Acme")];
                PyDict [("snippet", PyStr "Since 1949.")]])]);
    reflexivity.
Defined.

(** X7. For a successful response of the documented shape, the loop body takes
    its ["No data found"] branch exactly when the response lists no result
    (or has no [organic_results]) or lists a single result whose snippet is
    missing or empty; it then sends nothing to the completion service.  Two
    results or more always count as data. *)
Theorem no_data_found_on_success (w : world) (self : DataProcessor)
  (entity prompt query : string) (t : trace) (r : response)
  (entries : list (string * pyobj)) (items : list pyobj) :
  substitute w prompt entity = Ok query ->
  http w t search_url (search_request (web_searcher self) query)
  = GetReturns r ->
  is_http_error r = false ->
  body r = Decoded (PyDict entries) ->
  organic_results_of entries = Some items ->
  forallb result_shape items = true ->
  let t1 :=
    t ++ [HttpGet search_url (search_request (web_searcher self) query)] in
  (fst (search w (web_searcher self) entity prompt t) = Ok EmptyString
   <-> items = [] \/ exists item, items = [item] /\ snippet_of item = "")
  /\ (items = [] \/ (exists item, items = [item] /\ snippet_of item = "") ->
      process_entity w self prompt entity t
      = (Ok {| Entity := entity; Extracted_Information := "No data found" |},
         t1))
  /\ (2 <= length items ->
      exists info tail,
        process_entity w self prompt entity t
        = (Ok {| Entity := entity; Extracted_Information := info |},
           t1 ++ ChatCreate
                   (extraction_request query
                      (String.concat PyStr.nl (map snippet_of items)))
                 :: tail)).
Proof.
  intros Hq Hh Hs Hb Ho Hi t1.
  pose proof (search_returns_joined_snippets_aux w (web_searcher self) entity
                prompt query t r entries items Hq Hh Hs Hb Ho Hi) as Hsearch.
  assert (Hiff : String.concat PyStr.nl (map snippet_of items) = EmptyString
                 <-> items = []
                     \/ exists item, items = [item] /\ snippet_of item = "").
  { rewrite concat_nl_empty. split.
    - intros [H|H].
      + left. now destruct items.
      + right. destruct items as [|item [|]]; try discriminate.
        exists item. split; [reflexivity|]. now injection H.
    - intros [->|[item [-> H]]]; [now left|right]. cbn. now rewrite H. }
  split; [|split].
  - rewrite Hsearch. cbn [fst]. rewrite <- Hiff. split; [now intros [= ->]|].
    now intros ->.
  - intros H. apply Hiff in H. rewrite process_entity_eq, Hsearch, H.
    reflexivity.
  - intros Hn. rewrite process_entity_eq, Hsearch.
    assert (Ht : PyStr.truthy (String.concat PyStr.nl (map snippet_of items))
                 = true).
    { destruct items as [|x [|y rest]]; cbn in Hn; try lia.
      cbn [map String.concat]. destruct (snippet_of x); reflexivity. }
    rewrite Ht.
    destruct (extract_substituted w (llm_processor self) entity prompt
                (String.concat PyStr.nl (map snippet_of items))
                (t ++ [HttpGet search_url
                         (search_request (web_searcher self) query)])
                query Hq) as [info [tail [-> _]]].
    now exists info, tail.
Qed.

(** The theorem at work: a response with an error message and no
    [organic_results]. *)
Lemma no_data_found_on_success_witness :
  let w :=
    {| format_field := format_field Scenario.internet;
       http := fun _ _ _ =>
         Scenario.ok_response (PyDict [("error", PyStr "no results")]) |} in
  let t1 :=
    [] ++ [HttpGet search_url
             (search_request (web_searcher Scenario.processor)
                "What is the main product or service of Globex?")] in
  (fst (search w (web_searcher Scenario.processor) "Globex"
          Scenario.default_prompt []) = Ok EmptyString
   <-> @nil pyobj = []
       \/ exists item, [] = [item] /\ snippet_of item = "")
  /\ (@nil pyobj = [] \/ (exists item, [] = [item] /\ snippet_of item = "") ->
      process_entity w Scenario.processor Scenario.default_prompt "Globex" []
      = (Ok {| Entity := "Globex"; Extracted_Information := "No data found" |},
         t1))
  /\ (2 <= length (@nil pyobj) ->
      exists info tail,
        process_entity w Scenario.processor Scenario.default_prompt "Globex" []
        = (Ok {| Entity := "Globex"; Extracted_Information := info |},
           t1 ++ ChatCreate
                   (extraction_request
                      "What is the main product or service of Globex?"
                      (String.concat PyStr.nl (map snippet_of [])))
                 :: tail)).
Proof.
  apply (no_data_found_on_success _ Scenario.processor "Globex"
           Scenario.default_prompt
           "What is the main product or service of Globex?" []
           {| status_code := 200; reason := "OK"; url := search_url;
              body := Decoded (PyDict [("error", PyStr "no results")]) |}
           [("error", PyStr "no results")] []);
    reflexivity.
Defined.

(** ** Substitution *)

Section Scanning.

Variable ff : string -> option ascii -> string -> string -> result string.
Variable entity : string.

(** Literal text without braces is copied to the output. *)
Lemma scan_literal (piece : string) :
  forall out rest,
    brace_free piece = true ->
    PyFormat.scan ff entity PyFormat.Text out (piece ++ rest)
    = PyFormat.scan ff entity PyFormat.Text (out ++ piece) rest.
Proof.
  induction piece as [|c piece IH]; intros out rest H.
  - cbn. now rewrite append_empty_r.
  - apply brace_free_cons in H as [Ho [Hc Hs]].
    cbn [append PyFormat.scan PyFormat.step]. rewrite Ho, Hc.
    rewrite (IH _ _ Hs). unfold PyStr.char. now rewrite append_assoc.
Qed.

(** The field [{entity}] is replaced by the entity, which is not scanned. *)
Lemma scan_placeholder (out rest : string) :
  PyFormat.scan ff entity PyFormat.Text out ("{entity}" ++ rest)
  = PyFormat.scan ff entity PyFormat.Text (out ++ entity) rest.
Proof. reflexivity. Qed.

Lemma scan_pieces (pieces : list string) :
  forall out,
    forallb brace_free pieces = true ->
    PyFormat.scan ff entity PyFormat.Text out
      (String.concat "{entity}" pieces)
    = Ok (out ++ String.concat entity pieces)%string.
Proof.
  induction pieces as [|piece rest IH]; intros out H.
  - cbn. now rewrite append_empty_r.
  - cbn [forallb] in H. apply andb_true_iff in H as [Hp Hr].
    destruct rest as [|next rest].
    + cbn [String.concat]. now apply scan_brace_free.
    + change (String.concat "{entity}" (piece :: next :: rest))
        with (piece ++ "{entity}" ++ String.concat "{entity}" (next :: rest))%string.
      change (String.concat entity (piece :: next :: rest))
        with (piece ++ entity ++ String.concat entity (next :: rest))%string.
      rewrite (scan_literal piece _ _ Hp), scan_placeholder, (IH _ Hr).
      now rewrite !append_assoc.
Qed.

(** Doubled braces are halved. *)
Lemma scan_escape (s : string) :
  forall out,
    PyFormat.scan ff entity PyFormat.Text out (escape s) = Ok (out ++ s)%string.
Proof.
  induction s as [|c s IH]; intros out.
  - cbn. now rewrite append_empty_r.
  - cbn [escape].
    destruct (Ascii.eqb c "{") eqn:Eo.
    + apply Ascii.eqb_eq in Eo. subst c. cbn [orb].
      cbn [PyFormat.scan PyFormat.step Ascii.eqb Bool.eqb andb].
      cbn. rewrite IH. now rewrite append_assoc.
    + destruct (Ascii.eqb c "}") eqn:Ec; cbn [orb].
      * apply Ascii.eqb_eq in Ec. subst c.
        cbn. rewrite IH. now rewrite append_assoc.
      * cbn [PyFormat.scan PyFormat.step]. rewrite Eo, Ec.
        rewrite IH. unfold PyStr.char. now rewrite append_assoc.
Qed.

End Scanning.

(** X8. A template made of texts without braces with the field [{entity}]
    between them substitutes to the same texts with the entity between
    them, whatever the entity is: braces, quotes or line feeds in the entity
    are copied, never read as template.  This is the query [search] sends. *)
Theorem placeholders_are_replaced_by_the_entity (w : world)
  (self : WebSearcher) (pieces : list string) (entity : string) (t : trace) :
  forallb brace_free pieces = true ->
  substitute w (String.concat "{entity}" pieces) entity
  = Ok (String.concat entity pieces)
  /\ exists tail,
       snd (search w self entity (String.concat "{entity}" pieces) t)
       = t ++ HttpGet search_url
                (search_request self (String.concat entity pieces)) :: tail.
Proof.
  intros H.
  assert (Hq : substitute w (String.concat "{entity}" pieces) entity
               = Ok (String.concat entity pieces)).
  { unfold substitute, PyFormat.format.
    now rewrite (scan_pieces _ _ pieces "" H). }
  split; [exact Hq|].
  destruct (search_substituted w self entity _ t _ Hq) as [tail [Ht _]].
  now exists tail.
Qed.

(** The theorem at work: the default template, and an entity with braces. *)
Lemma placeholders_are_replaced_by_the_entity_witness :
  substitute Scenario.internet
    (String.concat "{entity}"
       ["What is the main product or service of "; "?"]) "{Acme} Corp"
  = Ok (String.concat "{Acme} Corp"
          ["What is the main product or service of "; "?"])
  /\ exists tail,
       snd (search Scenario.internet Scenario.searcher "{Acme} Corp"
              (String.concat "{entity}"
                 ["What is the main product or service of "; "?"]) [])
       = [] ++ HttpGet search_url
                 (search_request Scenario.searcher
                    (String.concat "{Acme} Corp"
                       ["What is the main product or service of "; "?"]))
               :: tail.
Proof.
  apply (placeholders_are_replaced_by_the_entity Scenario.internet
           Scenario.searcher
           ["What is the main product or service of "; "?"] "{Acme} Corp" []).
  reflexivity.
Defined.

(** X9. Any text can be used as a literal prompt by doubling its braces: the
    substitution then returns the text itself for every entity, and
    [extract_information] builds its request from it. *)
Theorem doubled_braces_give_the_text_back (w : world) (self : LLMProcessor)
  (text entity search_results : string) (t : trace) :
  substitute w (escape text) entity = Ok text
  /\ exists tail,
       snd (extract_information w self entity (escape text) search_results t)
       = t ++ ChatCreate (extraction_request text search_results) :: tail.
Proof.
  assert (Hq : substitute w (escape text) entity = Ok text).
  { unfold substitute, PyFormat.format. now rewrite scan_escape. }
  split; [exact Hq|].
  destruct (extract_substituted w self entity (escape text) search_results t
              text Hq) as [info [tail [Ht _]]].
  exists tail. now rewrite Ht.
Qed.

(** ** The text of an extraction *)

Lemma lstrip_all_space (s : string) :
  all_space s = true -> PyStr.lstrip s = EmptyString.
Proof.
  induction s as [|c s IH]; [reflexivity|]. cbn [all_space PyStr.lstrip].
  intros H. apply andb_true_iff in H as [Hc Hs]. rewrite Hc. now apply IH.
Qed.

Lemma strip_all_space (s : string) :
  all_space s = true -> PyStr.strip s = EmptyString.
Proof. intros H. unfold PyStr.strip. now rewrite lstrip_all_space. Qed.

(** A text without whitespace at its ends is left as it is. *)
Lemma lstrip_clean (s : string) :
  starts_with_space s = false -> PyStr.lstrip s = s.
Proof. destruct s as [|c s]; [reflexivity|]. cbn. now intros ->. Qed.

Lemma rstrip_clean (s : string) :
  ends_with_space s = false -> PyStr.rstrip s = s.
Proof.
  induction s as [|c s IH]; [reflexivity|]. intros H. cbn [PyStr.rstrip].
  destruct s as [|d s].
  - cbn in H |- *. now rewrite H.
  - change (ends_with_space (String d s) = false) in H.
    rewrite (IH H). reflexivity.
Qed.

(** X10. Whatever [extract_information] returns has no whitespace at either
    end, and trimming it again changes nothing: it is the empty string of a
    failed completion or the trimmed text of the first choice. *)
Theorem extraction_is_trimmed (w : world) (self : LLMProcessor)
  (entity prompt search_results : string) (t : trace) (text : string) :
  fst (extract_information w self entity prompt search_results t) = Ok text ->
  starts_with_space text = false
  /\ ends_with_space text = false
  /\ PyStr.strip text = text.
Proof.
  intros H.
  assert (Hends : starts_with_space text = false
                  /\ ends_with_space text = false).
  { revert H. rewrite extract_information_eq.
    destruct (substitute w prompt entity) as [query|x]; [|discriminate].
    cbv zeta. destruct (groq_client self t _) as [x|c].
    - cbn. intros [= <-]. now split.
    - unfold first_choice_text.
      destruct (choices c) as [|[answer|] others]; cbn; intros [= <-];
        try (now split).
      destruct (strip_spec answer) as [l [r [_ [_ [_ [Hs He]]]]]].
      now split. }
  destruct Hends as [Hs He]. repeat split; try assumption.
  unfold PyStr.strip. rewrite (lstrip_clean text Hs). now apply rstrip_clean.
Qed.

Lemma extraction_is_trimmed_witness :
  starts_with_space "Widgets." = false
  /\ ends_with_space "Widgets." = false
  /\ PyStr.strip "Widgets." = "Widgets.".
Proof.
  apply (extraction_is_trimmed Scenario.internet Scenario.extractor
           "Acme Corp" Scenario.default_prompt "Acme makes widgets." []).
  reflexivity.
Defined.

(** X11. A completion whose first choice is whitespace only gives the empty
    string, like a failed completion, but without a message on the sidebar;
    the record of the entity then has an empty [Extracted Information]. *)
Theorem blank_completion_gives_empty_string (w : world)
  (self : DataProcessor) (entity prompt query search_results answer : string)
  (t1 t2 : trace) (c : completion) (others : list (option string)) :
  search w (web_searcher self) entity prompt t1 = (Ok search_results, t2) ->
  search_results <> "" ->
  substitute w prompt entity = Ok query ->
  groq_client (llm_processor self) t2
    (extraction_request query search_results) = CreateReturns c ->
  choices c = Some answer :: others ->
  all_space answer = true ->
  let t3 := t2 ++ [ChatCreate (extraction_request query search_results)] in
  extract_information w (llm_processor self) entity prompt search_results t2
  = (Ok "", t3)
  /\ process_entity w self prompt entity t1
     = (Ok {| Entity := entity; Extracted_Information := "" |}, t3).
Proof.
  intros Hs Hne Hq Hc Hch Ha t3.
  assert (He : extract_information w (llm_processor self) entity prompt
                 search_results t2 = (Ok "", t3)).
  { rewrite (extract_succeeded w (llm_processor self) entity prompt
               search_results t2 query c answer others Hq Hc Hch).
    now rewrite (strip_all_space answer Ha). }
  split; [exact He|].
  apply truthy_not_empty in Hne.
  rewrite process_entity_eq, Hs, Hne, He. reflexivity.
Qed.

Lemma blank_completion_gives_empty_string_witness :
  let self :=
    {| web_searcher := Scenario.searcher;
       llm_processor := Scenario2.blank_extractor |} in
  let t2 :=
    [HttpGet search_url
       (search_request Scenario.searcher
          "What is the main product or service of Acme Corp?")] in
  let t3 :=
    t2 ++ [ChatCreate
             (extraction_request
                "What is the main product or service of Acme Corp?"
                "Acme makes widgets.")] in
  extract_information Scenario.internet Scenario2.blank_extractor "Acme Corp"
    Scenario.default_prompt "Acme makes widgets." t2 = (Ok "", t3)
  /\ process_entity Scenario.internet self Scenario.default_prompt
       "Acme Corp" []
     = (Ok {| Entity := "Acme Corp"; Extracted_Information := "" |}, t3).
Proof.
  apply (blank_completion_gives_empty_string Scenario.internet
           {| web_searcher := Scenario.searcher;
              llm_processor := Scenario2.blank_extractor |}
           "Acme Corp" Scenario.default_prompt
           "What is the main product or service of Acme Corp?"
           "Acme makes widgets." "  " []
           [HttpGet search_url
              (search_request Scenario.searcher
                 "What is the main product or service of Acme Corp?")]
           {| choices := [Some "  "] |} []);
    first [reflexivity | discriminate].
Defined.

(** ** The requests of a run *)

Lemma get_queries_app (l l' : list event) :
  get_queries (l ++ l') = get_queries l ++ get_queries l'.
Proof.
  induction l as [|e l IH]; [reflexivity|].
  destruct e; cbn; now rewrite IH.
Qed.

Lemma get_queries_sidebar (events : list event) :
  forallb is_sidebar_error events = true -> get_queries events = [].
Proof.
  induction events as [|e rest IH]; [reflexivity|]. cbn [forallb].
  intros H. apply andb_true_iff in H as [He Hr].
  destruct e; try discriminate. now apply IH.
Qed.

Lemma http_gets_queries (events : list event) :
  http_gets events = length (get_queries events).
Proof.
  unfold http_gets. induction events as [|e rest IH]; [reflexivity|].
  destruct e; cbn; now rewrite ?IH.
Qed.

Lemma substituted_ok (w : world) (prompt entity query : string) :
  substitute w prompt entity = Ok query -> substituted w prompt entity = query.
Proof. unfold substituted. now intros ->. Qed.

(** The loop body on a substituted template, in a world of the documented
    shape: it returns, and has sent one query. *)
Lemma process_entity_query (w : world) (self : DataProcessor)
  (prompt entity query : string) (t : trace) :
  well_shaped w ->
  substitute w prompt entity = Ok query ->
  exists record events,
    process_entity w self prompt entity t = (Ok record, t ++ events)
    /\ get_queries events = [query].
Proof.
  intros Hw Hq. rewrite process_entity_eq.
  destruct (search_returns w (web_searcher self) entity prompt t query Hw Hq)
    as [text [t1 Hs]].
  destruct (search_substituted w (web_searcher self) entity prompt t query Hq)
    as [tail [Ht Hside]].
  rewrite Hs in Ht |- *. cbn [snd] in Ht. subst t1.
  pose proof (get_queries_sidebar tail Hside) as Htail.
  destruct (PyStr.truthy text).
  - destruct (extract_substituted w (llm_processor self) entity prompt text
                (t ++ HttpGet search_url
                        (search_request (web_searcher self) query) :: tail)
                query Hq) as [info [tail' [-> Hside']]].
    rewrite <- app_assoc. do 2 eexists. split; [reflexivity|].
    rewrite get_queries_app. cbn. rewrite Htail.
    now rewrite (get_queries_sidebar tail' Hside').
  - do 2 eexists. split; [reflexivity|]. cbn. now rewrite Htail.
Qed.

(** X12. When every substitution succeeds, in a world of the documented shape,
    a run sends exactly one search request per entity, in the order of the
    input, each with the template substituted for its entity: duplicates are
    searched again, nothing is reordered or merged. *)
Theorem searches_follow_the_input (w : world) (self : DataProcessor)
  (entities : list string) (prompt : string) (t : trace) :
  well_shaped w ->
  substitutes w prompt entities = true ->
  exists records events,
    process_entities w self entities prompt t = (Ok records, t ++ events)
    /\ get_queries events = map (substituted w prompt) entities
    /\ http_gets events = length entities.
Proof.
  intros Hw. revert t.
  assert (H : forall t,
             substitutes w prompt entities = true ->
             exists records events,
               process_entities w self entities prompt t
               = (Ok records, t ++ events)
               /\ get_queries events = map (substituted w prompt) entities).
  { induction entities as [|entity rest IH]; intros t Hs.
    - exists [], []. rewrite app_nil_r. now split.
    - apply substitutes_cons in Hs as [[query Hq] Hr].
      rewrite process_entities_cons.
      destruct (process_entity_query w self prompt entity query t Hw Hq)
        as [record [first [-> Hfirst]]].
      destruct (IH (t ++ first) Hr) as [records [others [-> Hothers]]].
      exists (record :: records), (first ++ others).
      rewrite app_assoc. split; [reflexivity|].
      rewrite get_queries_app, Hfirst, Hothers. cbn.
      now rewrite (substituted_ok w prompt entity query Hq). }
  intros t Hs. destruct (H t Hs) as [records [events [Hrun Hqs]]].
  exists records, events. repeat split; try assumption.
  now rewrite http_gets_queries, Hqs, length_map.
Qed.

(** The theorem at work: Acme Corp twice. *)
Lemma searches_follow_the_input_witness :
  exists records events,
    process_entities Scenario.internet Scenario.processor
      ["Acme Corp"; "Globex"; "Acme Corp"] Scenario.default_prompt []
    = (Ok records, [] ++ events)
    /\ get_queries events
       = map (substituted Scenario.internet Scenario.default_prompt)
           ["Acme Corp"; "Globex"; "Acme Corp"]
    /\ http_gets events = length ["Acme Corp"; "Globex"; "Acme Corp"].
Proof.
  apply (searches_follow_the_input Scenario.internet Scenario.processor
           ["Acme Corp"; "Globex"; "Acme Corp"] Scenario.default_prompt []).
  - exact internet_well_shaped.
  - vm_compute. reflexivity.
Defined.

(** ** A run without failures *)

Lemma body_shape_items (o : pyobj) :
  body_shape o = true ->
  exists entries items,
    o = PyDict entries
    /\ organic_results_of entries = Some items
    /\ forallb result_shape items = true.
Proof.
  destruct o as [| | | | | |entries]; try discriminate. cbn [body_shape].
  destruct (PyObj.lookup "organic_results" entries) as [results|] eqn:El.
  - destruct results as [| | | | |items|]; try discriminate.
    intros H. exists entries, items. unfold organic_results_of.
    now rewrite El.
  - intros _. exists entries, []. unfold organic_results_of. now rewrite El.
Qed.

Lemma healthy_search (w : world) (self : WebSearcher)
  (entity prompt query : string) (t : trace) :
  healthy w ->
  substitute w prompt entity = Ok query ->
  exists text,
    search w self entity prompt t
    = (Ok text, t ++ [HttpGet search_url (search_request self query)]).
Proof.
  intros Hw Hq.
  destruct (Hw t search_url (search_request self query))
    as [r [o [Hh [Hs [Hb Ho]]]]].
  destruct (body_shape_items o Ho) as [entries [items [-> [Hi Hr]]]].
  eexists.
  exact (search_returns_joined_snippets_aux w self entity prompt query t r
           entries items Hq Hh Hs Hb Hi Hr).
Qed.

Lemma dependable_extract (w : world) (self : LLMProcessor)
  (entity prompt query search_results : string) (t : trace) :
  dependable self ->
  substitute w prompt entity = Ok query ->
  exists text,
    extract_information w self entity prompt search_results t
    = (Ok text, t ++ [ChatCreate (extraction_request query search_results)]).
Proof.
  intros Hd Hq. rewrite extract_information_eq, Hq. cbv zeta.
  specialize (Hd t (extraction_request query search_results)).
  destruct (groq_client self t _) as [x|c]; [discriminate|].
  cbn in Hd. destruct (first_choice_text c) as [text|x]; [|discriminate].
  now exists text.
Qed.

Lemma quiet_entity (w : world) (self : DataProcessor)
  (prompt entity query : string) (t : trace) :
  healthy w -> dependable (llm_processor self) ->
  substitute w prompt entity = Ok query ->
  exists record events,
    process_entity w self prompt entity t = (Ok record, t ++ events)
    /\ forallb is_quiet events = true.
Proof.
  intros Hw Hd Hq. rewrite process_entity_eq.
  destruct (healthy_search w (web_searcher self) entity prompt query t Hw Hq)
    as [text ->].
  destruct (PyStr.truthy text).
  - destruct (dependable_extract w (llm_processor self) entity prompt query
                text (t ++ [HttpGet search_url
                              (search_request (web_searcher self) query)])
                Hd Hq) as [info ->].
    rewrite <- app_assoc. do 2 eexists. split; reflexivity.
  - do 2 eexists. split; reflexivity.
Qed.

(** X13. When every substitution succeeds, every search is answered with a
    successful response of the documented shape and every completion has a
    text in its first choice, a run returns and writes nothing to the
    sidebar: the error messages are for failures only. *)
Theorem run_without_failure_is_quiet (w : world) (self : DataProcessor)
  (entities : list string) (prompt : string) (t : trace) :
  healthy w ->
  dependable (llm_processor self) ->
  substitutes w prompt entities = true ->
  exists records events,
    process_entities w self entities prompt t = (Ok records, t ++ events)
    /\ forallb is_quiet events = true.
Proof.
  intros Hw Hd. revert t.
  induction entities as [|entity rest IH]; intros t Hs.
  - exists [], []. rewrite app_nil_r. now split.
  - apply substitutes_cons in Hs as [[query Hq] Hr].
    rewrite process_entities_cons.
    destruct (quiet_entity w self prompt entity query t Hw Hd Hq)
      as [record [first [-> Hfirst]]].
    destruct (IH (t ++ first) Hr) as [records [others [-> Hothers]]].
    exists (record :: records), (first ++ others).
    rewrite app_assoc. split; [reflexivity|].
    now rewrite forallb_app, Hfirst, Hothers.
Qed.

Lemma internet_healthy : healthy Scenario.internet.
Proof.
  intros t target params. do 2 eexists. split; [reflexivity|].
  split; [reflexivity|]. split; [reflexivity|].
  unfold Scenario.answers. destruct (String.eqb _ _); reflexivity.
Qed.

Lemma run_without_failure_is_quiet_witness :
  exists records events,
    process_entities Scenario.internet Scenario.processor
      ["Acme Corp"; "Globex"] Scenario.default_prompt []
    = (Ok records, [] ++ events)
    /\ forallb is_quiet events = true.
Proof.
  apply (run_without_failure_is_quiet Scenario.internet Scenario.processor
           ["Acme Corp"; "Globex"] Scenario.default_prompt []).
  - exact internet_healthy.
  - intros t req. reflexivity.
  - vm_compute. reflexivity.
Defined.

(** ** The data loaders *)

Section LoaderProperties.

Context {Bytes Text DataFrame : Type}.
Context {Credentials Client Spreadsheet Worksheet : Type}.

(** [load_csv], case by case. *)
Lemma load_csv_eq (lib : tables Bytes Text DataFrame)
  (uploaded_file : UploadedFile Bytes) (t : trace) :
  load_csv lib uploaded_file t =
  let failed e :=
    (Ok None, t ++ [SidebarError ("Error reading CSV file: " ++ exn_str e)]) in
  match read uploaded_file with
  | Raise e => failed e
  | Ok raw =>
      match decode_utf8 lib raw with
      | Raise e => failed e
      | Ok csv_data =>
          match read_csv lib csv_data with
          | Raise e => failed e
          | Ok frame => (Ok (Some frame), t)
          end
      end
  end.
Proof.
  unfold load_csv, try_except, bind, lift, sidebar_error, ret.
  destruct (read uploaded_file) as [raw|e]; [|reflexivity].
  destruct (decode_utf8 lib raw) as [csv_data|e]; [|reflexivity].
  destruct (read_csv lib csv_data) as [frame|e]; reflexivity.
Qed.

(** [load_google_sheet], once the values of the sheet are known. *)
Lemma load_google_sheet_eq
  (api : sheets Credentials Client Spreadsheet Worksheet)
  (lib : tables Bytes Text DataFrame) (sheet_url : string) (t : trace) :
  load_google_sheet api lib sheet_url t =
  let failed e :=
    (Ok None,
     t ++ [SidebarError ("Error connecting to Google Sheet: " ++ exn_str e)]) in
  match sheet_values api sheet_url with
  | Raise e => failed e
  | Ok [] => failed (mkExn IndexError "pop from empty list")
  | Ok (headers :: rows) =>
      match data_frame lib rows headers with
      | Raise e => failed e
      | Ok frame => (Ok (Some frame), t)
      end
  end.
Proof.
  unfold load_google_sheet, sheet_values, try_except, bind, lift,
    sidebar_error, ret, bind_result.
  destruct (from_service_account_file api _ _) as [creds|e]; [|reflexivity].
  destruct (authorize api creds) as [client|e]; [|reflexivity].
  destruct (open_by_url api client sheet_url) as [book|e]; [|reflexivity].
  destruct (sheet1 api book) as [sheet|e]; [|reflexivity].
  destruct (get_all_values api sheet) as [[|headers rows]|e];
    try reflexivity.
  cbn. destruct (data_frame lib rows headers) as [frame|e]; reflexivity.
Qed.

(** X14. [load_csv] never raises.  It returns the table [read_csv] built from
    the decoded bytes of the file, and then writes nothing; or, when reading,
    decoding or parsing raised, it returns [None] and writes exactly one
    message to the sidebar, which carries the text of that exception. *)
Theorem load_csv_reports_failures (lib : tables Bytes Text DataFrame)
  (uploaded_file : UploadedFile Bytes) (t : trace) :
  exists loaded events,
    load_csv lib uploaded_file t = (Ok loaded, t ++ events)
    /\ ((exists raw csv_data frame,
           loaded = Some frame /\ events = []
           /\ read uploaded_file = Ok raw
           /\ decode_utf8 lib raw = Ok csv_data
           /\ read_csv lib csv_data = Ok frame)
        \/ (exists e,
              loaded = None
              /\ events
                 = [SidebarError ("Error reading CSV file: " ++ exn_str e)]
              /\ (read uploaded_file = Raise e
                  \/ (exists raw,
                        read uploaded_file = Ok raw
                        /\ (decode_utf8 lib raw = Raise e
                            \/ exists csv_data,
                                 decode_utf8 lib raw = Ok csv_data
                                 /\ read_csv lib csv_data = Raise e))))).
Proof.
  rewrite load_csv_eq. cbv zeta.
  destruct (read uploaded_file) as [raw|e].
  - destruct (decode_utf8 lib raw) as [csv_data|e] eqn:Ed.
    + destruct (read_csv lib csv_data) as [frame|e] eqn:Er.
      * exists (Some frame), []. rewrite app_nil_r. split; [reflexivity|].
        left. now exists raw, csv_data, frame.
      * do 2 eexists. split; [reflexivity|]. right. exists e.
        repeat split. right. exists raw. split; [reflexivity|]. right.
        now exists csv_data.
    + do 2 eexists. split; [reflexivity|]. right. exists e. repeat split.
      right. exists raw. split; [reflexivity|]. now left.
  - do 2 eexists. split; [reflexivity|]. right. exists e. repeat split.
    now left.
Qed.

(** X15. [load_google_sheet] never raises.  It returns a table only when the
    sheet has a first row, and that table is built from the rows after the
    first with the first row as column names; it then writes nothing.
    Otherwise it returns [None] and writes exactly one message to the
    sidebar. *)
Theorem load_google_sheet_reports_failures
  (api : sheets Credentials Client Spreadsheet Worksheet)
  (lib : tables Bytes Text DataFrame) (sheet_url : string) (t : trace) :
  exists loaded events,
    load_google_sheet api lib sheet_url t = (Ok loaded, t ++ events)
    /\ ((exists headers rows frame,
           loaded = Some frame /\ events = []
           /\ sheet_values api sheet_url = Ok (headers :: rows)
           /\ data_frame lib rows headers = Ok frame)
        \/ (exists msg,
              loaded = None
              /\ events
                 = [SidebarError ("Error connecting to Google Sheet: " ++ msg)]
              /\ forall headers rows frame,
                   sheet_values api sheet_url = Ok (headers :: rows) ->
                   data_frame lib rows headers <> Ok frame)).
Proof.
  rewrite load_google_sheet_eq. cbv zeta.
  destruct (sheet_values api sheet_url) as [[|headers rows]|e].
  - do 2 eexists. split; [reflexivity|]. right. eexists.
    repeat split. discriminate.
  - destruct (data_frame lib rows headers) as [frame|e] eqn:Ef.
    + exists (Some frame), []. rewrite app_nil_r. split; [reflexivity|].
      left. now exists headers, rows, frame.
    + do 2 eexists. split; [reflexivity|]. right. eexists.
      repeat split. intros h r f [= <- <-]. congruence.
  - do 2 eexists. split; [reflexivity|]. right. eexists.
    repeat split. discriminate.
Qed.

(** X16. When the spreadsheet client returns no row at all, the sheet is
    reported as a connection error: nothing can be popped from its values.
    When it returns a single row, that row is the header of a table without
    rows, and nothing is reported unless the table cannot be built. *)
Theorem empty_sheet_is_reported
  (api : sheets Credentials Client Spreadsheet Worksheet)
  (lib : tables Bytes Text DataFrame) (sheet_url : string) (t : trace)
  (values : list (list string)) :
  sheet_values api sheet_url = Ok values ->
  length values <= 1 ->
  load_google_sheet api lib sheet_url t =
  match values with
  | [] =>
      (Ok None,
       t ++ [SidebarError
               "Error connecting to Google Sheet: pop from empty list"])
  | headers :: _ =>
      match data_frame lib [] headers with
      | Ok frame => (Ok (Some frame), t)
      | Raise e =>
          (Ok None,
           t ++ [SidebarError
                   ("Error connecting to Google Sheet: " ++ exn_str e)])
      end
  end.
Proof.
  intros Hv Hl. rewrite load_google_sheet_eq, Hv. cbv zeta.
  destruct values as [|headers [|row rows]]; try reflexivity.
  cbn in Hl. lia.
Qed.

End LoaderProperties.

Lemma empty_sheet_is_reported_witness :
  load_google_sheet (Scenario2.sheet_of []) Scenario2.frames
    "https://docs.google.com/spreadsheets/d/1" []
  = (Ok None,
     [] ++ [SidebarError
              "Error connecting to Google Sheet: pop from empty list"]).
Proof.
  apply (empty_sheet_is_reported (Scenario2.sheet_of []) Scenario2.frames
           "https://docs.google.com/spreadsheets/d/1" [] []).
  - reflexivity.
  - cbn. lia.
Defined.

(** ** Status codes and templates *)

(** X17. For a response whose body is JSON of the documented shape, [search]
    fails the request exactly when the status is in 400..599: it then returns
    the empty string and shows the status, the reason and the URL on the
    sidebar.  Every other status, also outside 200..299, is read like a
    success, and nothing is written. *)
Theorem only_4xx_and_5xx_fail_the_search (w : world) (self : WebSearcher)
  (entity prompt query : string) (t : trace) (r : response) (o : pyobj) :
  substitute w prompt entity = Ok query ->
  http w t search_url (search_request self query) = GetReturns r ->
  body r = Decoded o ->
  body_shape o = true ->
  let t1 := t ++ [HttpGet search_url (search_request self query)] in
  ((400 <= status_code r < 600)%Z ->
   exists kind,
     (kind = "Client" \/ kind = "Server")
     /\ search w self entity prompt t
        = (Ok "",
           t1 ++ [SidebarError
                    ("Error during web search: "
                       ++ PyStr.decimal (Z.to_N (status_code r)) ++ " "
                       ++ kind ++ " Error: " ++ reason r ++ " for url: "
                       ++ url r)]))
  /\ (~ (400 <= status_code r < 600)%Z ->
      exists text, search w self entity prompt t = (Ok text, t1)).
Proof.
  intros Hq Hh Hb Ho t1. split.
  - intros Hs. rewrite search_eq, Hq. cbv zeta. rewrite Hh.
    unfold snippets_text, Requests.raise_for_status.
    destruct ((400 <=? status_code r) && (status_code r <? 500))%Z eqn:E4.
    + exists "Client". split; [now left|reflexivity].
    + destruct ((500 <=? status_code r) && (status_code r <? 600))%Z eqn:E5.
      * exists "Server". split; [now right|reflexivity].
      * exfalso. apply andb_false_iff in E4, E5.
        rewrite Z.leb_gt, Z.ltb_ge in E4, E5. lia.
  - intros Hs.
    assert (He : is_http_error r = false).
    { unfold is_http_error. apply andb_false_iff.
      rewrite Z.leb_gt, Z.ltb_ge. lia. }
    destruct (body_shape_items o Ho) as [entries [items [-> [Hi Hr]]]].
    eexists.
    exact (search_returns_joined_snippets_aux w self entity prompt query t r
             entries items Hq Hh He Hb Hi Hr).
Qed.

(** The theorem at work: a redirect that carries results is read. *)
Lemma only_4xx_and_5xx_fail_the_search_witness :
  let r :=
    {| status_code := 302; reason := "Found"; url := search_url;
       body :=
         Decoded
           (PyDict [("organic_results",
                     PyList [PyDict [("snippet", PyStr "Moved.")]])]) |} in
  let w :=
    {| format_field := format_field Scenario.internet;
       http := fun _ _ _ => GetReturns r |} in
  let t1 :=
    [] ++ [HttpGet search_url
             (search_request Scenario.searcher
                "What is the main product or service of Acme Corp?")] in
  ((400 <= status_code r < 600)%Z ->
   exists kind,
     (kind = "Client" \/ kind = "Server")
     /\ search w Scenario.searcher "Acme Corp" Scenario.default_prompt []
        = (Ok "",
           t1 ++ [SidebarError
                    ("Error during web search: "
                       ++ PyStr.decimal (Z.to_N (status_code r)) ++ " "
                       ++ kind ++ " Error: " ++ reason r ++ " for url: "
                       ++ url r)]))
  /\ (~ (400 <= status_code r < 600)%Z ->
      exists text,
        search w Scenario.searcher "Acme Corp" Scenario.default_prompt []
        = (Ok text, t1)).
Proof.
  apply (only_4xx_and_5xx_fail_the_search _ Scenario.searcher "Acme Corp"
           Scenario.default_prompt
           "What is the main product or service of Acme Corp?" []
           {| status_code := 302; reason := "Found"; url := search_url;
              body :=
                Decoded
                  (PyDict [("organic_results",
                            PyList [PyDict [("snippet", PyStr "Moved.")]])]) |}
           (PyDict [("organic_results",
                     PyList [PyDict [("snippet", PyStr "Moved.")]])]));
    reflexivity.
Defined.

(** X18. A template that does not substitute for the first entity ends the run
    before anything is requested or written: the exception leaves
    [process_entities] with the trace untouched.  On an empty list the
    template is never looked at, and the run returns the empty list. *)
Theorem bad_template_fails_before_any_request (w : world)
  (self : DataProcessor) (prompt entity : string) (rest : list string)
  (t : trace) (e : exn) :
  substitute w prompt entity = Raise e ->
  is_request_exception e = false ->
  process_entities w self (entity :: rest) prompt t = (Raise e, t)
  /\ process_entities w self [] prompt t = (Ok [], t).
Proof.
  intros Hq He. split; [|reflexivity].
  rewrite process_entities_cons, process_entity_eq, search_eq, Hq.
  cbv beta iota zeta. now rewrite He.
Qed.

Lemma bad_template_fails_before_any_request_witness :
  process_entities Scenario.internet Scenario.processor
    ("Acme Corp" :: ["Globex"]) "Tell me about {entity" []
  = (Raise (mkExn ValueError "expected '}' before end of string"), [])
  /\ process_entities Scenario.internet Scenario.processor []
       "Tell me about {entity" []
     = (Ok [], []).
Proof.
  apply (bad_template_fails_before_any_request Scenario.internet
           Scenario.processor "Tell me about {entity" "Acme Corp" ["Globex"]
           []);
    reflexivity.
Defined.
